(** * Gebes/there: request dispatch, response rendering and request readers

    A shallow embedding of [handler.go], [response.go] and [request.go].

    - Go strings and byte slices are sequences of bytes: [string].
    - [int] status codes are [Z] (no arithmetic is done on them).
    - Go maps are [gmap]; a map that is ranged over is given as the list of
      its entries in the order the loop visits them.
    - A call that may panic, or that writes to the response writer or to the
      request-scoped state, is a computation in the monad [M]: a function of
      the world that yields [None] on a panic.
    - One response writer serves a request; [ServeHTTP(rw, r)] of a response
      writes to it.  The writer follows the contract of
      [http.ResponseWriter]; what a server adds on its own when it sends the
      headers is left out. *)

From Stdlib Require Import ZArith NArith String Ascii List Bool Lia.
From stdpp Require Import base option list gmap strings.

Local Open Scope string_scope.
Local Open Scope Z_scope.

(** ** Bytes and strings *)

(** The double quote character, byte 34. *)
Definition dquote : ascii := "034"%char.

(** The backslash character, byte 92. *)
Definition backslash : ascii := "092"%char.

Definition byte_in (lo hi : N) (c : ascii) : bool :=
  ((lo <=? N_of_ascii c) && (N_of_ascii c <=? hi))%N.

Definition is_ascii_byte (c : ascii) : bool := (N_of_ascii c <? 128)%N.

(** [for i := range e] over a string steps from one UTF-8 sequence to the
    next.  [utf8_accept c0] gives, for a leading byte [c0] of a multi-byte
    sequence, its length and the range allowed for the second byte. *)
Definition utf8_accept (c0 : ascii) : option (nat * N * N) :=
  if byte_in 194 223 c0 then Some (2%nat, 128%N, 191%N)
  else if byte_in 224 224 c0 then Some (3%nat, 160%N, 191%N)
  else if byte_in 225 236 c0 then Some (3%nat, 128%N, 191%N)
  else if byte_in 237 237 c0 then Some (3%nat, 128%N, 159%N)
  else if byte_in 238 239 c0 then Some (3%nat, 128%N, 191%N)
  else if byte_in 240 240 c0 then Some (4%nat, 144%N, 191%N)
  else if byte_in 241 243 c0 then Some (4%nat, 128%N, 191%N)
  else if byte_in 244 244 c0 then Some (4%nat, 128%N, 143%N)
  else None.

(** Number of bytes the range loop consumes at the head of [s]; an invalid
    or truncated sequence is consumed one byte at a time. *)
Definition rune_width (s : string) : nat :=
  match s with
  | EmptyString => 0%nat
  | String c0 rest =>
    match utf8_accept c0 with
    | None => 1%nat
    | Some (size, lo, hi) =>
      match rest with
      | String c1 rest1 =>
        if negb (byte_in lo hi c1) then 1%nat
        else if (size =? 2)%nat then 2%nat
        else match rest1 with
             | String c2 rest2 =>
               if negb (byte_in 128 191 c2) then 1%nat
               else if (size =? 3)%nat then 3%nat
               else match rest2 with
                    | String c3 _ => if byte_in 128 191 c3 then 4%nat else 1%nat
                    | EmptyString => 1%nat
                    end
             | EmptyString => 1%nat
             end
      | EmptyString => 1%nat
      end
    end
  end.

(** ** net/http: header maps and the response writer *)

Definition is_lower (c : ascii) : bool := byte_in 97 122 c.
Definition is_upper (c : ascii) : bool := byte_in 65 90 c.
Definition is_digit (c : ascii) : bool := byte_in 48 57 c.

Definition to_upper (c : ascii) : ascii := ascii_of_N (N_of_ascii c - 32).
Definition to_lower (c : ascii) : ascii := ascii_of_N (N_of_ascii c + 32).

Definition validHeaderFieldByte (c : ascii) : bool :=
  is_lower c || is_upper c || is_digit c ||
  existsb (Ascii.eqb c)
    ["!"; "#"; "$"; "%"; "&"; "'"; "*"; "+"; "-"; "."; "^"; "_"; "`"; "|"; "~"]%char.

Fixpoint string_forallb (p : ascii -> bool) (s : string) : bool :=
  match s with
  | EmptyString => true
  | String c rest => p c && string_forallb p rest
  end.

Fixpoint canonical_from (upper : bool) (s : string) : string :=
  match s with
  | EmptyString => EmptyString
  | String c rest =>
    let c' := if upper && is_lower c then to_upper c
              else if negb upper && is_upper c then to_lower c
              else c in
    String c' (canonical_from (Ascii.eqb c' "-") rest)
  end.

(** [textproto.CanonicalMIMEHeaderKey]: a key made of header field bytes is
    put in title case, any other key is left as it is. *)
Definition CanonicalMIMEHeaderKey (s : string) : string :=
  if string_forallb validHeaderFieldByte s then canonical_from true s else s.

(** [http.Header] is [map[string][]string]. *)
Abbreviation Header := (gmap string (list string)).

Definition Header_Get (h : Header) (key : string) : string :=
  match h !! CanonicalMIMEHeaderKey key with
  | Some (v :: _) => v
  | _ => ""
  end.

Definition Header_Set (key value : string) (h : Header) : Header :=
  <[CanonicalMIMEHeaderKey key := [value]]> h.

(** The state behind an [http.ResponseWriter]: the header map handed out by
    [Header()], whether the status line and headers have been sent, the
    status and the headers that were sent, the informational responses sent
    before them, and the body bytes passed to [Write]. *)
Record ResponseWriter := mkResponseWriter {
  header : Header;
  wroteHeader : bool;
  status : Z;
  sentHeader : Header;
  informational : list (Z * Header);
  written : string
}.

Definition newResponseWriter : ResponseWriter :=
  mkResponseWriter ∅ false 0 ∅ [] "".

Definition set_header (f : Header -> Header) (rw : ResponseWriter) : ResponseWriter :=
  mkResponseWriter (f (header rw)) (wroteHeader rw) (status rw) (sentHeader rw)
                   (informational rw) (written rw).

Definition is_informational (code : Z) : bool :=
  (100 <=? code) && (code <=? 199) && negb (code =? 101).

(** What a call of [WriteHeader] that returns does to the writer: the first
    call with a final status sends the status line together with the
    headers as they are at that moment; changes made to the header map
    afterwards are not sent.  A 1xx status sends the current headers as an
    informational response and leaves the final one open.  Once the status
    line is sent a call changes nothing. *)
Definition sendHeader (code : Z) (rw : ResponseWriter) : ResponseWriter :=
  if wroteHeader rw then rw
  else if is_informational code then
    mkResponseWriter (header rw) false (status rw) (sentHeader rw)
                     (informational rw ++ [(code, header rw)]) (written rw)
  else
    mkResponseWriter (header rw) true code (header rw)
                     (informational rw) (written rw).

(** The check of the status code that [WriteHeader] makes: a code below 100
    or above 999 is refused. *)
Definition checkWriteHeaderCode (code : Z) : bool :=
  (100 <=? code) && (code <=? 999).

(** [WriteHeader]: a call after the status line was sent returns at once;
    otherwise the code is checked, and the call panics ([None]) on a code
    that is refused. *)
Definition WriteHeader (code : Z) (rw : ResponseWriter) : option ResponseWriter :=
  if wroteHeader rw then Some rw
  else if checkWriteHeaderCode code then Some (sendHeader code rw)
  else None.

Definition StatusOK : Z := 200.

(** [Write]: sends the header with status 200, a code that is accepted, if
    none was sent, then the data. *)
Definition Write (data : string) (rw : ResponseWriter) : ResponseWriter :=
  let rw := if wroteHeader rw then rw else sendHeader StatusOK rw in
  mkResponseWriter (header rw) (wroteHeader rw) (status rw) (sentHeader rw)
                   (informational rw) (written rw +:+ data).

(** ** Requests and the world a handler runs in *)

(** The fields of [*http.Request] that the router reads. *)
Record http_Request := mkRequest {
  req_Method : string;
  URL_Path : string;
  URL_Query : gmap string (list string);
  req_Header : gmap string (list string)
}.

(** [MapString] is [map[string]string]. *)
Abbreviation MapString := (gmap string string).

(** What one request can read and write while it is served: the response
    writer, the cell [RouteParams] of its [HttpRequest] points to, and the
    rest of the program state [Ext] that endpoints and middlewares reach. *)
Record World (Ext : Type) := mkWorld {
  rw : ResponseWriter;
  routeParams : MapString;
  ext : Ext
}.
Arguments mkWorld {Ext}.
Arguments rw {Ext}.
Arguments routeParams {Ext}.
Arguments ext {Ext}.

Definition on_rw {Ext} (f : ResponseWriter -> ResponseWriter) (w : World Ext) : World Ext :=
  mkWorld (f (rw w)) (routeParams w) (ext w).

Definition on_ext {Ext} (f : Ext -> Ext) (w : World Ext) : World Ext :=
  mkWorld (rw w) (routeParams w) (f (ext w)).

Definition set_routeParams {Ext} (params : MapString) (w : World Ext) : World Ext :=
  mkWorld (rw w) params (ext w).

(** A computation: runs in a world, and either panics ([None]) or returns a
    value and the world it leaves. *)
Definition M (Ext A : Type) : Type := World Ext -> option (A * World Ext).

Definition ret {Ext A} (a : A) : M Ext A := fun w => Some (a, w).

Definition bind {Ext A B} (c : M Ext A) (k : A -> M Ext B) : M Ext B :=
  fun w => match c w with
           | Some (a, w') => k a w'
           | None => None
           end.

Definition panic {Ext A} : M Ext A := fun _ => None.

(** An effect that cannot fail. *)
Definition modify {Ext} (f : World Ext -> World Ext) : M Ext unit :=
  fun w => Some (tt, f w).

(** A call of [rw.WriteHeader(code)]. *)
Definition call_WriteHeader {Ext} (code : Z) : M Ext unit :=
  fun w => match WriteHeader code (rw w) with
           | Some rw' => Some (tt, mkWorld rw' (routeParams w) (ext w))
           | None => None
           end.

Notation "'let*' x ':=' c 'in' k" := (bind c (fun x => k))
  (at level 10, x name, c at level 100, k at level 200).
Notation "c ';;' k" := (bind c (fun _ => k))
  (at level 100, k at level 200, right associativity).

(** ** response.go *)

(** Modelled from the spec: the constants [ResponseHeaderContentType],
    [ContentTypeTextPlain], [ContentTypeApplicationJson],
    [ContentTypeApplicationXml] and [StatusInternalServerError] are declared
    in files that are not at hand; the values are the ones the specification
    names (text, JSON and XML content types, status 500). *)
Definition ResponseHeaderContentType : string := "Content-Type".
Definition ContentTypeTextPlain : string := "text/plain".
Definition ContentTypeApplicationJson : string := "application/json".
Definition ContentTypeApplicationXml : string := "application/xml".
Definition StatusInternalServerError : Z := 500.

#[local] Set Warnings "-register-all".

(** The response variants of [response.go].  Each Go struct with a
    [ServeHTTP] method is a constructor; [HttpResponseFunc] carries an
    arbitrary handler.  A [nil] response is [None]. *)
Inductive HttpResponse (Ext : Type) : Type :=
| bytesResponse (data : string)
| statusResponse (code : Z) (response : option (HttpResponse Ext))
| headerResponse (headers : list (string * string)) (response : option (HttpResponse Ext))
| stringResponse (code : Z) (data : string)
| htmlResponse (code : Z) (data : string)
| jsonResponse (code : Z) (data : string)
| xmlResponse (code : Z) (data : string)
| HttpResponseFunc (f : http_Request -> M Ext unit).
Arguments bytesResponse {Ext}.
Arguments statusResponse {Ext}.
Arguments headerResponse {Ext}.
Arguments stringResponse {Ext}.
Arguments htmlResponse {Ext}.
Arguments jsonResponse {Ext}.
Arguments xmlResponse {Ext}.
Arguments HttpResponseFunc {Ext}.

(** One turn of the loop of [headerResponse.ServeHTTP]: the header is set
    only when [Get] finds nothing for the key. *)
Definition setHeaderIfUnset (h : Header) (kv : string * string) : Header :=
  if (String.length (Header_Get h (fst kv)) =? 0)%nat
  then Header_Set (fst kv) (snd kv) h
  else h.

(** The loop [for key, value := range h.headers] over the entries in the
    order they are visited. *)
Definition setHeaders (headers : list (string * string)) (h : Header) : Header :=
  fold_left setHeaderIfUnset headers h.

Section Responses.
Context {Ext : Type}.

Fixpoint ServeHTTP (resp : HttpResponse Ext) (r : http_Request) {struct resp} : M Ext unit :=
  match resp with
  | bytesResponse data =>
      modify (on_rw (Write data))
  | statusResponse code response =>
      call_WriteHeader code ;;
      match response with
      | Some inner => ServeHTTP inner r
      | None => ret tt
      end
  | headerResponse headers response =>
      modify (on_rw (set_header (setHeaders headers))) ;;
      match response with
      | Some inner => ServeHTTP inner r
      | None => ret tt
      end
  | stringResponse code data =>
      call_WriteHeader code ;;
      modify (on_rw (set_header (Header_Set ResponseHeaderContentType ContentTypeTextPlain))) ;;
      modify (on_rw (Write data))
  | htmlResponse code data =>
      call_WriteHeader code ;;
      modify (on_rw (set_header (Header_Set ResponseHeaderContentType ContentTypeTextPlain))) ;;
      modify (on_rw (Write data))
  | jsonResponse code data =>
      call_WriteHeader code ;;
      modify (on_rw (set_header (Header_Set ResponseHeaderContentType ContentTypeApplicationJson))) ;;
      modify (on_rw (Write data))
  | xmlResponse code data =>
      call_WriteHeader code ;;
      modify (on_rw (set_header (Header_Set ResponseHeaderContentType ContentTypeApplicationXml))) ;;
      modify (on_rw (Write data))
  | HttpResponseFunc f => f r
  end.

(** Calling [ServeHTTP] on an interface value that may be [nil]. *)
Definition call_ServeHTTP (resp : option (HttpResponse Ext)) (r : http_Request) : M Ext unit :=
  match resp with
  | Some h => ServeHTTP h r
  | None => panic
  end.

Definition StatusWithResponse (code : Z) (response : option (HttpResponse Ext)) : HttpResponse Ext :=
  statusResponse code response.

Definition Bytes (code : Z) (data : string) : HttpResponse Ext :=
  StatusWithResponse code (Some (bytesResponse data)).

Definition Status (code : Z) : HttpResponse Ext :=
  statusResponse code None.

Definition WithHeaders (headers : list (string * string)) (response : option (HttpResponse Ext)) : HttpResponse Ext :=
  headerResponse headers response.

Definition String_ (code : Z) (data : string) : HttpResponse Ext :=
  stringResponse code data.

Definition Message (code : Z) (message : string) : HttpResponse Ext :=
  jsonResponse code message.

End Responses.

(** The [error] interface: a value with an [Error()] message. *)
Record error := errors_New { error_Error : string }.

(** [fmt.Errorf(prefix + "%v", err)]. *)
Definition fmt_Errorf_v (prefix : string) (err : error) : error :=
  errors_New (prefix +:+ error_Error err).

Definition jsonLeft : string :=
  String "{" (String dquote ("error" +:+ String dquote (String ":" (String dquote "")))).

Definition jsonRight : string := String dquote "}".

(** The loop of [Error].  [for i := range e] visits the first byte of each
    UTF-8 sequence of [e]: [skip] counts the bytes still to pass over before
    the next visit, [b] is the builder.  At a double quote the loop writes
    the one-byte string the Go literal denotes, a double quote. *)
Fixpoint Error_loop (skip : nat) (e : string) (b : string) : string :=
  match e with
  | EmptyString => b
  | String c rest =>
    match skip with
    | S k => Error_loop k rest b
    | O =>
      let b' := if Ascii.eqb c dquote
                then b +:+ String dquote ""
                else b +:+ String c "" in
      Error_loop (rune_width e - 1) rest b'
    end
  end.

Section Builders.
Context {Ext : Type}.

Definition Error (code : Z) (err : error) : HttpResponse Ext :=
  let e := error_Error err in
  let b := Error_loop 0 e "" in
  jsonResponse code (jsonLeft +:+ b +:+ jsonRight).

(** The value handed to [Json] and [Xml], and the two marshalers of the Go
    library: each returns the bytes and an error that is [None] on
    success. *)
Variable any : Type.
Variable json_Marshal : any -> string * option error.
Variable xml_Marshal : any -> string * option error.

Definition Json (code : Z) (data : any) : HttpResponse Ext :=
  let '(jsonData, err) := json_Marshal data in
  match err with
  | Some err => Error StatusInternalServerError (fmt_Errorf_v "json marshall: " err)
  | None => jsonResponse code jsonData
  end.

Definition Xml (code : Z) (data : any) : HttpResponse Ext :=
  let '(xmlData, err) := xml_Marshal data in
  match err with
  | Some err => Error StatusInternalServerError (fmt_Errorf_v "xml marshall: " err)
  | None => xmlResponse code xmlData
  end.

End Builders.

Section Templates.
Context {Ext : Type}.

(** The template engine of the Go library: [template.ParseFiles] gives a
    template and an error, [t.Execute] gives what it wrote to the buffer
    and an error; an error is [None] on success. *)
Variable any : Type.
Variable Template : Type.
Variable template_ParseFiles : string -> Template * option error.
Variable template_Execute : Template -> any -> string * option error.

(** [parseTemplate] returns a pointer to the body, [None] for [nil], and an
    error. *)
Definition parseTemplate (templateFileName : string) (data : any) : option string * option error :=
  let '(t, err) := template_ParseFiles templateFileName in
  match err with
  | Some err => (None, Some err)
  | None =>
    let '(buf, err) := template_Execute t data in
    match err with
    | Some err => (None, Some err)
    | None => let body := buf in (Some body, None)
    end
  end.

(** [Html] dereferences the pointer it got; [None] stands for the panic of a
    [nil] dereference. *)
Definition Html (code : Z) (file : string) (template : any) : option (HttpResponse Ext) :=
  let '(content, err) := parseTemplate file template in
  match err with
  | Some err => Some (Error StatusInternalServerError (fmt_Errorf_v "template parse: " err))
  | None =>
    match content with
    | Some content => Some (htmlResponse code content)
    | None => None
    end
  end.

End Templates.

(** ** request.go *)

(** [BasicReader] is [map[string][]string]. *)
Abbreviation BasicReader := (gmap string (list string)).

(** [RouteParamReader] is [map[string]string]. *)
Abbreviation RouteParamReader := (gmap string string).

(** An [HttpRequest] value.  Its fields [ResponseWriter], [Body] and
    [RouteParams] are references into the world of the request: the response
    writer is [rw], the cell behind [RouteParams] is [routeParams]. *)
Record HttpRequest := mkHttpRequest {
  Request : http_Request;
  Method : string;
  Params : BasicReader;
  Headers : BasicReader
}.

Definition BasicReader_GetSlice (reader : BasicReader) (key : string) : list string * bool :=
  match reader !! key with
  | Some list => if (length list =? 0)%nat then ([], false) else (list, true)
  | None => ([], false)
  end.

Definition BasicReader_Has (reader : BasicReader) (key : string) : bool :=
  snd (BasicReader_GetSlice reader key).

(** [Get] indexes the slice it got at 0; [None] stands for the panic of an
    index out of range. *)
Definition BasicReader_Get (reader : BasicReader) (key : string) : option (string * bool) :=
  let '(list, ok) := BasicReader_GetSlice reader key in
  if negb ok then Some ("", false)
  else match list !! 0%nat with
       | Some first => Some (first, true)
       | None => None
       end.

Definition BasicReader_GetDefault (reader : BasicReader) (key defaultValue : string) : option string :=
  match BasicReader_Get reader key with
  | Some (s, ok) => if negb ok then Some defaultValue else Some s
  | None => None
  end.

Definition RouteParamReader_Has (reader : RouteParamReader) (key : string) : bool :=
  match reader !! key with Some _ => true | None => false end.

Definition RouteParamReader_Get (reader : RouteParamReader) (key : string) : string * bool :=
  match reader !! key with Some v => (v, true) | None => ("", false) end.

Definition RouteParamReader_GetDefault (reader : RouteParamReader) (key defaultValue : string) : string :=
  let '(s, ok) := RouteParamReader_Get reader key in
  if negb ok then defaultValue else s.

Section Body.

(** The body of the request and the two calls the reader makes on it:
    [ioutil.ReadAll] gives the bytes read and an error, and leaves the body
    read; [Body.Close] closes it (its error is not looked at). *)
Variable Body : Type.
Variable ioutil_ReadAll : Body -> (string * option error) * Body.
Variable Body_Close : Body -> Body.

(** [ToBytes]; the deferred [Close] runs on every return.  A [nil] slice is
    the empty string. *)
Definition BodyReader_ToBytes (body : Body) : (string * option error) * Body :=
  let '((data, err), body) := ioutil_ReadAll body in
  let body := Body_Close body in
  match err with
  | Some err => (("", Some err), body)
  | None => ((data, None), body)
  end.

Definition BodyReader_ToString (body : Body) : (string * option error) * Body :=
  let '((data, err), body) := BodyReader_ToBytes body in
  match err with
  | Some err => (("", Some err), body)
  | None => ((data, err), body)
  end.

(** [bind]: the formatter fills [dest] from the bytes and returns an error;
    the result is the destination as it is left, and the error. *)
Definition BodyReader_bind {Dest : Type} (dest : Dest)
           (formatter : string -> Dest -> Dest * option error) (body : Body)
  : (Dest * option error) * Body :=
  let '((data, err), body) := BodyReader_ToBytes body in
  match err with
  | Some err => ((dest, Some err), body)
  | None => (formatter data dest, body)
  end.

(** [BindJson] and [BindXml] over the unmarshalers of the Go library. *)
Definition BodyReader_BindJson {Dest : Type} (json_Unmarshal : string -> Dest -> Dest * option error)
           (dest : Dest) (body : Body) : (Dest * option error) * Body :=
  BodyReader_bind dest json_Unmarshal body.

Definition BodyReader_BindXml {Dest : Type} (xml_Unmarshal : string -> Dest -> Dest * option error)
           (dest : Dest) (body : Body) : (Dest * option error) * Body :=
  BodyReader_bind dest xml_Unmarshal body.

End Body.

(** [NewHttpRequest] builds the readers and allocates the [RouteParams]
    cell, holding an empty map. *)
Definition NewHttpRequest {Ext} (request : http_Request) : M Ext HttpRequest :=
  modify (set_routeParams ∅) ;;
  ret (mkHttpRequest request (req_Method request) (URL_Query request) (req_Header request)).

(** ** handler.go *)

(** A [Response] is an interface value and may be [nil]. *)
Definition Response (Ext : Type) : Type := option (HttpResponse Ext).

Definition Endpoint (Ext : Type) : Type := HttpRequest -> M Ext (Response Ext).

Definition Middleware (Ext : Type) : Type := HttpRequest -> Response Ext -> M Ext (Response Ext).

Section Dispatch.
Context {Ext : Type}.

(** Declared outside the files at hand: the index type of the per-method
    tables with [methodToInt], the route matcher with [findNode], and
    [path.Clean] of the Go library. *)
Context {MethodIndex : Type} (methodToInt : string -> MethodIndex).
Context (path_Clean : string -> string).

(** A trie node as [ServeHTTP] uses it: the two tables indexed by method;
    an empty slot of [handler] is [None]. *)
Record node := mkNode {
  handler : MethodIndex -> option (Endpoint Ext);
  middlewares : MethodIndex -> list (Middleware Ext)
}.

Context {Matcher : Type} (findNode : Matcher -> string -> option node * RouteParamReader).

Record RouterConfiguration := mkConfiguration {
  SanitizePaths : bool;
  RouteNotFoundHandler : option (Endpoint Ext)
}.

Record Router := mkRouter {
  Configuration : RouterConfiguration;
  matcher : Matcher;
  globalMiddlewares : list (Middleware Ext)
}.

(** Calling an endpoint variable that may hold [nil] (line 32). *)
Definition call_Endpoint (endpoint : option (Endpoint Ext)) (httpRequest : HttpRequest) : M Ext (Response Ext) :=
  match endpoint with
  | Some f => f httpRequest
  | None => panic
  end.

(** The loops of lines 35 to 42:
    [for i := len(mws) - 1; i >= 0; i-- { next = mws[i](httpRequest, next) }]
    with [n] turns left, the next one at index [n - 1]. *)
Fixpoint wrapFrom (mws : list (Middleware Ext)) (httpRequest : HttpRequest)
         (n : nat) (next : Response Ext) : M Ext (Response Ext) :=
  match n with
  | O => ret next
  | S i =>
    match mws !! i with
    | Some middleware =>
        let* next := middleware httpRequest next in
        wrapFrom mws httpRequest i next
    | None => panic
    end
  end.

Definition wrap (mws : list (Middleware Ext)) (httpRequest : HttpRequest)
           (next : Response Ext) : M Ext (Response Ext) :=
  wrapFrom mws httpRequest (length mws) next.

(** The terminal handler of lines 31 to 33: runs the endpoint and renders
    what it returns. *)
Definition terminal (endpoint : option (Endpoint Ext)) (httpRequest : HttpRequest) : Response Ext :=
  Some (HttpResponseFunc (fun r =>
    let* resp := call_Endpoint endpoint httpRequest in
    call_ServeHTTP resp r)).

(** The composition of the handler chain, lines 31 to 42: the terminal
    handler, the loop over the route's middlewares, the loop over the global
    ones. *)
Definition compose (globals locals : list (Middleware Ext)) (endpoint : option (Endpoint Ext))
           (httpRequest : HttpRequest) : M Ext (Response Ext) :=
  let next := terminal endpoint httpRequest in
  let* next := wrap locals httpRequest next in
  wrap globals httpRequest next.

(** Composition followed by the call of the composed handler, line 43. *)
Definition pipeline (globals locals : list (Middleware Ext)) (endpoint : option (Endpoint Ext))
           (httpRequest : HttpRequest) (request : http_Request) : M Ext unit :=
  let* next := compose globals locals endpoint httpRequest in
  call_ServeHTTP next request.

(** Lines 12 to 15. *)
Definition sanitizedPath (router : Router) (request : http_Request) : string :=
  if SanitizePaths (Configuration router)
  then path_Clean (URL_Path request)
  else URL_Path request.

(** The endpoint chosen for a lookup result, lines 20 to 29: the slot of the
    node for the method, and the not-found handler when that leaves [nil]. *)
Definition routeEndpoint (router : Router) (found : option node) (method : MethodIndex) : option (Endpoint Ext) :=
  let endpoint := match found with
                  | Some n => handler n method
                  | None => None
                  end in
  match endpoint with
  | None => RouteNotFoundHandler (Configuration router)
  | Some _ => endpoint
  end.

(** The middlewares chosen for a lookup result, lines 21 to 26. *)
Definition routeMiddlewares (found : option node) (method : MethodIndex) : list (Middleware Ext) :=
  match found with
  | Some n => middlewares n method
  | None => []
  end.

(** [(router *Router) ServeHTTP]. *)
Definition Router_ServeHTTP (router : Router) (request : http_Request) : M Ext unit :=
  let* httpRequest := NewHttpRequest request in
  let method := methodToInt (req_Method request) in
  let '(found, params) := findNode (matcher router) (sanitizedPath router request) in
  modify (set_routeParams params) ;;
  let endpoint := routeEndpoint router found method in
  let middlewares := routeMiddlewares found method in
  pipeline (globalMiddlewares router) middlewares endpoint httpRequest request.

End Dispatch.

(** * Vocabulary of the properties *)

(** ** Rendering *)

(** What the renderings of [stringResponse], [jsonResponse] and
    [xmlResponse] do to the writer, for a content type [ct], when
    [WriteHeader] returns. *)
Definition renderTyped (ct : string) (code : Z) (data : string) (rw : ResponseWriter) : ResponseWriter :=
  Write data (set_header (Header_Set ResponseHeaderContentType ct) (sendHeader code rw)).

(** Whether [WriteHeader] returns for a code on a writer: always once the
    status line is sent, and before that for a code it does not refuse. *)
Definition accepted (code : Z) (rw : ResponseWriter) : bool :=
  wroteHeader rw || checkWriteHeaderCode code.

(** The message the specification describes for [Error]: every double quote
    preceded by a backslash. *)
Fixpoint escape_quotes (s : string) : string :=
  match s with
  | EmptyString => EmptyString
  | String c rest =>
    if Ascii.eqb c dquote
    then String backslash (String dquote (escape_quotes rest))
    else String c (escape_quotes rest)
  end.

(** The message made of [a], a double quote and [b]. *)
Definition quoted_message : string := String "a" (String dquote "b").

(** The two bytes of the UTF-8 sequence of the letter e with an acute
    accent, 195 and 169. *)
Definition accented_message : string := String "195" (String "169" "").

Definition exampleRequest : http_Request := mkRequest "GET" "/" ∅ ∅.

(** A world in which nothing has been written to the response yet. *)
Definition freshWorld {Ext} (e : Ext) : World Ext := mkWorld newResponseWriter ∅ e.

(** A marshaler that succeeds with the bytes [{}]. *)
Definition marshalBraces (_ : unit) : string * option error := ("{}", None).

(** A marshaler that fails with the message [quoted_message]. *)
Definition marshalFails (_ : unit) : string * option error :=
  ("", Some (errors_New quoted_message)).

(** ** Chains of middlewares *)

(** The chain as a nest: the first middleware is applied last, to what the
    rest of the list made of [next]. *)
Fixpoint nest {Ext} (mws : list (Middleware Ext)) (httpRequest : HttpRequest)
         (next : Response Ext) : M Ext (Response Ext) :=
  match mws with
  | [] => ret next
  | middleware :: rest =>
      let* inner := nest rest httpRequest next in
      middleware httpRequest inner
  end.

(** The [HttpRequest] that [NewHttpRequest] returns. *)
Definition httpRequestOf (request : http_Request) : HttpRequest :=
  mkHttpRequest request (req_Method request) (URL_Query request) (req_Header request).


(** A middleware that, for the request [hr], does not run [next] while the
    chain is composed: it returns, and the world it leaves is the same for
    every [next], a [nil] one and one that panics included. *)
Definition composes_blind {Ext} (hr : HttpRequest) (m : Middleware Ext) : Prop :=
  forall w, exists w', forall next, exists resp, m hr next w = Some (resp, w').



(** A middleware that answers 401 whatever [next] is. *)
Definition deny401 {Ext} : Middleware Ext :=
  fun _ _ => ret (Some (Status 401)).





(** ** Middlewares and endpoints that log *)

(** A middleware that logs its name on entry: the handler it returns
    appends the name to the log, then runs [next]. *)
Definition logOnEntry (name : string) : Middleware (list string) :=
  fun _ next =>
    ret (Some (HttpResponseFunc (fun r =>
      modify (on_ext (fun log => (log ++ [name])%list)) ;;
      call_ServeHTTP next r))).

(** An endpoint that logs its name and answers with [resp]. *)
Definition loggingEndpoint (name : string) (resp : Response (list string)) : Endpoint (list string) :=
  fun _ => modify (on_ext (fun log => (log ++ [name])%list)) ;; ret resp.

(** A response whose rendering succeeds and leaves the log alone. *)
Definition quiet {Ext} (resp : Response Ext) : Prop :=
  forall r w, exists w', call_ServeHTTP resp r w = Some (tt, w') /\ ext w' = ext w.

(** The log of what was read from [RouteParams], and by whom. *)
Abbreviation Readings := (list (string * RouteParamReader)).

(** Reading the [RouteParams] cell and logging what it holds. *)
Definition readParams (name : string) : M Readings unit :=
  modify (fun w => on_ext (fun log => (log ++ [(name, routeParams w)])%list) w).

(** A middleware that reads the route parameters twice: in its own body,
    and on entry of the handler it returns. *)
Definition probe (name : string) : Middleware Readings :=
  fun _ next =>
    readParams name ;;
    ret (Some (HttpResponseFunc (fun r =>
      readParams name ;;
      call_ServeHTTP next r))).

(** An endpoint that reads the route parameters and answers with [resp]. *)
Definition probeEndpoint (name : string) (resp : Response Readings) : Endpoint Readings :=
  fun _ => readParams name ;; ret resp.

Definition reading (params : RouteParamReader) (name : string) : string * RouteParamReader :=
  (name, params).

(** ** Headers *)

(** The value the loop of [headerResponse.ServeHTTP] gives a header that is
    unset when the loop starts: the first value among the entries with the
    same canonical key that is not empty. *)
Fixpoint firstWrite (key : string) (headers : list (string * string)) : string :=
  match headers with
  | [] => ""
  | (k, v) :: rest =>
    if String.eqb (CanonicalMIMEHeaderKey k) (CanonicalMIMEHeaderKey key)
       && negb (String.eqb v "")
    then v
    else firstWrite key rest
  end.

(** The claim as the specification words it: a header that the rendering of
    the inner response sets is not changed by a wrapper around it. *)
Definition inner_value_kept_claim (Ext : Type) : Prop :=
  forall (headers : list (string * string)) (inner : HttpResponse Ext)
         (r : http_Request) (w w1 w2 : World Ext) (key : string),
    Header_Get (header (rw w)) key = "" ->
    ServeHTTP inner r w = Some (tt, w1) ->
    Header_Get (header (rw w1)) key <> "" ->
    ServeHTTP (WithHeaders headers (Some inner)) r w = Some (tt, w2) ->
    Header_Get (header (rw w2)) key = Header_Get (header (rw w1)) key.

(** ** More vocabulary: responses without handlers, readers, call order *)

(** A response built from the structs of [response.go] alone, with no
    [HttpResponseFunc] inside. *)
Fixpoint plain {Ext} (resp : HttpResponse Ext) : bool :=
  match resp with
  | HttpResponseFunc _ => false
  | statusResponse _ (Some inner) => plain inner
  | headerResponse _ (Some inner) => plain inner
  | _ => true
  end.

(** Every status code the response hands to [WriteHeader] is one that
    [WriteHeader] accepts. *)
Fixpoint validCodes {Ext} (resp : HttpResponse Ext) : bool :=
  match resp with
  | statusResponse code (Some inner) => checkWriteHeaderCode code && validCodes inner
  | statusResponse code None => checkWriteHeaderCode code
  | headerResponse _ (Some inner) => validCodes inner
  | stringResponse code _ => checkWriteHeaderCode code
  | htmlResponse code _ => checkWriteHeaderCode code
  | jsonResponse code _ => checkWriteHeaderCode code
  | xmlResponse code _ => checkWriteHeaderCode code
  | _ => true
  end.

(** What a writer may turn into while a response is rendered: the body only
    grows, and once the status line is sent, the status and the headers
    that were sent stay. *)
Definition extends (rw0 rw1 : ResponseWriter) : Prop :=
  (exists more, written rw1 = written rw0 +:+ more) /\
  (wroteHeader rw0 = true ->
   wroteHeader rw1 = true /\ status rw1 = status rw0 /\ sentHeader rw1 = sentHeader rw0).

(** The status a response writes before anything else, for the responses
    that start with [WriteHeader]. *)
Definition leadingStatus {Ext} (resp : HttpResponse Ext) : option Z :=
  match resp with
  | statusResponse code _ => Some code
  | stringResponse code _ => Some code
  | htmlResponse code _ => Some code
  | jsonResponse code _ => Some code
  | xmlResponse code _ => Some code
  | _ => None
  end.

(** A header map whose keys are all in canonical form, as the header map of
    a request read by the server is. *)
Definition canonicalKeys (h : Header) : Prop :=
  forall k vs, h !! k = Some vs -> CanonicalMIMEHeaderKey k = k.

(** Entries whose keys differ also after canonicalisation. *)
Definition distinctCanonical (headers : list (string * string)) : Prop :=
  NoDup (map (fun kv => CanonicalMIMEHeaderKey (fst kv)) headers).

(** A middleware that hands back [next] and touches nothing. *)
Definition transparent {Ext} (m : Middleware Ext) : Prop :=
  forall hr next w, m hr next w = Some (next, w).

(** A middleware that logs its name in its own body, when it is called,
    and hands back [next]. *)
Definition logOnCall (name : string) : Middleware (list string) :=
  fun _ next => modify (on_ext (fun log => (log ++ [name])%list)) ;; ret next.

(** An endpoint that reads one route parameter with [GetDefault] and answers
    with it as a string. *)
Definition paramEndpoint {Ext} (key defaultValue : string) : Endpoint Ext :=
  fun _ w =>
    Some (Some (String_ 200 (RouteParamReader_GetDefault (routeParams w) key defaultValue)), w).

(** An endpoint that returns [resp] and touches nothing. *)
Definition constEndpoint {Ext} (resp : Response Ext) : Endpoint Ext :=
  fun _ => ret resp.

(** ** A router with one route *)

Module Fixture.

(** Three method indices: GET, POST, and one for every other string. *)
Definition methodToInt (method : string) : nat :=
  if String.eqb method "GET" then 0%nat
  else if String.eqb method "POST" then 1%nat
  else 2%nat.

Definition path_Clean (p : string) : string := p.

(** A matcher with at most one route, [/users/:id]. *)
Definition findNode {Ext} (matcher : option (@node Ext nat)) (path : string)
  : option (@node Ext nat) * RouteParamReader :=
  match matcher with
  | Some n => if String.eqb path "/users/42"
              then (Some n, {["id" := "42"]})
              else (None, ∅)
  | None => (None, ∅)
  end.

Definition onGet {A} (x : A) (other : A) (i : nat) : A :=
  if (i =? 0)%nat then x else other.

Definition getUser : http_Request := mkRequest "GET" "/users/42" ∅ ∅.
Definition traceUser : http_Request := mkRequest "TRACE" "/users/42" ∅ ∅.

Definition loggedNode : @node (list string) nat :=
  mkNode (onGet (Some (loggingEndpoint "endpoint" (Some (Status 200)))) None)
         (onGet (map logOnEntry ["L1"; "L2"]) []).

Definition loggedRouter : @Router (list string) (option (@node (list string) nat)) :=
  mkRouter (mkConfiguration false (Some (loggingEndpoint "not found" (Some (Status 404)))))
           (Some loggedNode)
           (map logOnEntry ["G1"; "G2"]).

Definition probedNode : @node Readings nat :=
  mkNode (onGet (Some (probeEndpoint "endpoint" (Some (Status 200)))) None)
         (onGet (map probe ["L1"; "L2"]) []).

Definition probedRouter : @Router Readings (option (@node Readings nat)) :=
  mkRouter (mkConfiguration false None) (Some probedNode) (map probe ["G1"; "G2"]).

Definition jsonDefault : list (string * string) :=
  [("Content-Type", "application/json")].

(** The world after [String_ 200] is rendered inside [WithHeaders] over
    [jsonDefault] on a fresh writer. *)
Definition wrappedString : World unit :=
  on_rw (renderTyped ContentTypeTextPlain 200 "hi")
        (on_rw (set_header (setHeaders jsonDefault)) (freshWorld tt)).

End Fixture.

(** ** More routers, bodies and templates to run the code on *)

Module More.

(** A 404 around a header wrapper around a JSON response with status 200. *)
Definition nestedResponse : HttpResponse unit :=
  StatusWithResponse 404 (Some (WithHeaders [("X", "1")] (Some (jsonResponse 200 "{}")))).

(** A world in which the status 200 has been sent. *)
Definition sentWorld : World unit := on_rw (sendHeader 200) (freshWorld tt).

(** A request with one header, under its canonical key. *)
Definition headerRequest : http_Request :=
  mkRequest "GET" "/" ∅ {["Content-Type" := ["text/plain"]]}.

(** A body: the bytes not yet read, and whether it is closed. *)
Definition Body : Type := string * bool.

Definition readAll (body : Body) : (string * option error) * Body :=
  ((fst body, None), ("", snd body)).

(** A read that fails after three bytes. *)
Definition readFails (body : Body) : (string * option error) * Body :=
  (("par", Some (errors_New "unexpected EOF")), ("", snd body)).

Definition close (body : Body) : Body := (fst body, true).

(** A formatter that stores the bytes in the destination. *)
Definition store (data : string) (dest : string) : string * option error := (data, None).

Definition passNext {Ext} : Middleware Ext := fun _ next => ret next.

Definition returnsNil {Ext} : Middleware Ext := fun _ _ => ret None.

(** A route whose middlewares hand back [next], with an endpoint for GET
    only, in a router with a not-found handler. *)
Definition fallbackNode : @node (list string) nat :=
  mkNode (Fixture.onGet (Some (loggingEndpoint "endpoint" (Some (Status 200)))) None)
         (fun _ => [passNext]).

Definition fallbackRouter : @Router (list string) (option (@node (list string) nat)) :=
  mkRouter (mkConfiguration false (Some (loggingEndpoint "not found" (Some (Status 404)))))
           (Some fallbackNode) [passNext].

(** The world after [fallbackRouter] has served [Fixture.traceUser]. *)
Definition fallbackServed : World (list string) :=
  mkWorld (sendHeader 404 newResponseWriter) {["id" := "42"]} ["not found"].

Definition calledNode : @node (list string) nat :=
  mkNode (Fixture.onGet (Some (loggingEndpoint "endpoint" (Some (Status 200)))) None)
         (Fixture.onGet (map logOnCall ["L1"; "L2"]) []).

Definition calledRouter : @Router (list string) (option (@node (list string) nat)) :=
  mkRouter (mkConfiguration false None) (Some calledNode) (map logOnCall ["G1"; "G2"]).

Definition deniedRouter : @Router (list string) (option (@node (list string) nat)) :=
  mkRouter (mkConfiguration false None) (Some calledNode)
           (map logOnCall ["G1"] ++ deny401 :: map logOnCall ["G2"])%list.

Definition bytesNode : @node unit nat :=
  mkNode (Fixture.onGet (Some (constEndpoint (Some (Bytes 200 "hi")))) None)
         (Fixture.onGet [passNext] []).

Definition bytesRouter : @Router unit (option (@node unit nat)) :=
  mkRouter (mkConfiguration false None) (Some bytesNode) [passNext].

Definition nilRouter : @Router unit (option (@node unit nat)) :=
  mkRouter (mkConfiguration false None) (Some bytesNode) [returnsNil; passNext].

Definition paramNode : @node unit nat :=
  mkNode (Fixture.onGet (Some (paramEndpoint "id" "none")) None)
         (Fixture.onGet [passNext] []).

Definition paramRouter : @Router unit (option (@node unit nat)) :=
  mkRouter (mkConfiguration false None) (Some paramNode) [passNext].

End More.

(** * Properties *)

(** ** Strings *)

Lemma append_cons (c : ascii) (s t : string) :
  String c s +:+ t = String c (s +:+ t).
Proof. reflexivity. Qed.

Lemma append_nil_l (s : string) : "" +:+ s = s.
Proof. reflexivity. Qed.

Lemma append_nil_r (s : string) : s +:+ "" = s.
Proof. induction s as [|c s IH]; [reflexivity|]. by rewrite append_cons, IH. Qed.

Lemma append_assoc (s t u : string) : (s +:+ t) +:+ u = s +:+ (t +:+ u).
Proof. induction s as [|c s IH]; [reflexivity|]. by rewrite !append_cons, IH. Qed.

Lemma ascii_byte_no_sequence (c : ascii) :
  is_ascii_byte c = true -> utf8_accept c = None.
Proof.
  unfold is_ascii_byte, utf8_accept, byte_in. intros H%N.ltb_lt.
  repeat match goal with
         | |- context [(?a <=? ?b)%N] =>
             destruct (N.leb_spec a b); simpl; try lia
         end; reflexivity.
Qed.

Lemma rune_width_ascii (c : ascii) (s : string) :
  is_ascii_byte c = true -> rune_width (String c s) = 1%nat.
Proof. intros H. simpl. by rewrite (ascii_byte_no_sequence _ H). Qed.

(** ** The response writer *)

Lemma Header_Get_Set (h : Header) (key value : string) :
  Header_Get (Header_Set key value h) key = value.
Proof. unfold Header_Get, Header_Set. by rewrite lookup_insert_eq. Qed.

Lemma Header_Get_Set_other (h : Header) (key key' value : string) :
  CanonicalMIMEHeaderKey key <> CanonicalMIMEHeaderKey key' ->
  Header_Get (Header_Set key value h) key' = Header_Get h key'.
Proof. intros Hne. unfold Header_Get, Header_Set. by rewrite lookup_insert_ne. Qed.

Lemma renderTyped_header (ct : string) (code : Z) (data : string) (rw : ResponseWriter) :
  header (renderTyped ct code data rw) = Header_Set ResponseHeaderContentType ct (header rw).
Proof.
  unfold renderTyped, Write, sendHeader, set_header.
  destruct (wroteHeader rw) eqn:Hw; simpl; [by rewrite Hw|].
  destruct (is_informational code); simpl; reflexivity.
Qed.

Lemma renderTyped_written (ct : string) (code : Z) (data : string) (rw : ResponseWriter) :
  written (renderTyped ct code data rw) = written rw +:+ data.
Proof.
  unfold renderTyped, Write, sendHeader, set_header.
  destruct (wroteHeader rw) eqn:Hw; simpl; [by rewrite Hw|].
  destruct (is_informational code); simpl; reflexivity.
Qed.

(** The headers that are sent are the ones held when [WriteHeader] is
    called: the content type set after it is not among them. *)
Lemma renderTyped_sentHeader (ct : string) (code : Z) (data : string) (rw : ResponseWriter) :
  wroteHeader rw = false -> is_informational code = false ->
  sentHeader (renderTyped ct code data rw) = header rw /\
  status (renderTyped ct code data rw) = code /\
  wroteHeader (renderTyped ct code data rw) = true.
Proof.
  intros Hw Hi. unfold renderTyped, Write, sendHeader, set_header.
  rewrite Hw, Hi. simpl. done.
Qed.

Section ResponseFacts.
Context {Ext : Type}.
Implicit Types (w : World Ext) (r : http_Request).

Lemma call_WriteHeader_cases code w :
  call_WriteHeader code w
  = if accepted code (rw w) then Some (tt, on_rw (sendHeader code) w) else None.
Proof.
  unfold call_WriteHeader, WriteHeader, accepted, on_rw, sendHeader.
  destruct w as [rw0 rp e]. cbn [rw routeParams ext].
  destruct (wroteHeader rw0); [reflexivity|].
  by destruct (checkWriteHeaderCode code).
Qed.

Lemma ServeHTTP_typed ct code data w :
  (call_WriteHeader code ;;
   modify (on_rw (set_header (Header_Set ResponseHeaderContentType ct))) ;;
   modify (on_rw (Write data))) w
  = if accepted code (rw w) then Some (tt, on_rw (renderTyped ct code data) w) else None.
Proof.
  unfold bind at 1. rewrite call_WriteHeader_cases.
  by destruct (accepted code (rw w)).
Qed.

Lemma ServeHTTP_stringResponse code data r w :
  ServeHTTP (stringResponse code data) r w
  = if accepted code (rw w)
    then Some (tt, on_rw (renderTyped ContentTypeTextPlain code data) w)
    else None.
Proof. apply ServeHTTP_typed. Qed.

Lemma ServeHTTP_htmlResponse code data r w :
  ServeHTTP (htmlResponse code data) r w
  = if accepted code (rw w)
    then Some (tt, on_rw (renderTyped ContentTypeTextPlain code data) w)
    else None.
Proof. apply ServeHTTP_typed. Qed.

Lemma ServeHTTP_jsonResponse code data r w :
  ServeHTTP (jsonResponse code data) r w
  = if accepted code (rw w)
    then Some (tt, on_rw (renderTyped ContentTypeApplicationJson code data) w)
    else None.
Proof. apply ServeHTTP_typed. Qed.

Lemma ServeHTTP_xmlResponse code data r w :
  ServeHTTP (xmlResponse code data) r w
  = if accepted code (rw w)
    then Some (tt, on_rw (renderTyped ContentTypeApplicationXml code data) w)
    else None.
Proof. apply ServeHTTP_typed. Qed.

Lemma ServeHTTP_headerResponse headers response r w :
  ServeHTTP (headerResponse headers response) r w
  = match response with
    | Some inner => ServeHTTP inner r (on_rw (set_header (setHeaders headers)) w)
    | None => Some (tt, on_rw (set_header (setHeaders headers)) w)
    end.
Proof. destruct response; reflexivity. Qed.

Lemma ServeHTTP_statusResponse code response r w :
  ServeHTTP (statusResponse code response) r w
  = if accepted code (rw w)
    then match response with
         | Some inner => ServeHTTP inner r (on_rw (sendHeader code) w)
         | None => Some (tt, on_rw (sendHeader code) w)
         end
    else None.
Proof.
  destruct response; cbn [ServeHTTP]; unfold bind at 1;
    rewrite call_WriteHeader_cases; by destruct (accepted code (rw w)).
Qed.

End ResponseFacts.

(** ** [Error] *)

(** On a message of ASCII bytes the loop of [Error] copies every byte,
    double quotes included. *)
Lemma Error_loop_ascii (e b : string) :
  string_forallb is_ascii_byte e = true -> Error_loop 0 e b = b +:+ e.
Proof.
  revert b. induction e as [|c e IH]; intros b H.
  - by rewrite append_nil_r.
  - cbn [string_forallb] in H. apply andb_true_iff in H as [Hc He].
    cbn [Error_loop]. rewrite (rune_width_ascii _ _ Hc). cbn [Nat.sub].
    replace (if Ascii.eqb c dquote then b +:+ String dquote "" else b +:+ String c "")
      with (b +:+ String c "").
    + rewrite IH by done. by rewrite append_assoc.
    + destruct (Ascii.eqb_spec c dquote) as [->|]; reflexivity.
Qed.

Lemma Error_ascii {Ext} (code : Z) (err : error) :
  string_forallb is_ascii_byte (error_Error err) = true ->
  @Error Ext code err = jsonResponse code (jsonLeft +:+ error_Error err +:+ jsonRight).
Proof. intros H. unfold Error. by rewrite Error_loop_ascii, append_nil_l. Qed.

(** C4. [Error] is specified to escape every double quote of the message in
    the body it emits.  On the message made of [a], a double quote and [b]
    the code emits the quote as it is: the body is the message between
    [jsonLeft] and [jsonRight], not the escaped message between them. *)
Theorem Error_quote_not_escaped :
  @Error unit 400 (errors_New quoted_message)
    = jsonResponse 400 (jsonLeft +:+ quoted_message +:+ jsonRight) /\
  escape_quotes quoted_message = String "a" (String backslash (String dquote "b")) /\
  @Error unit 400 (errors_New quoted_message)
    <> jsonResponse 400 (jsonLeft +:+ escape_quotes quoted_message +:+ jsonRight).
Proof. split; [reflexivity|]. split; [reflexivity|]. vm_compute. discriminate. Qed.

(** The loop visits one byte for each UTF-8 sequence and writes that byte
    only: of a two-byte character the second byte is left out. *)
Example Error_loop_drops_continuation_byte :
  Error_loop 0 accented_message "" = String "195" "".
Proof. reflexivity. Qed.

(** ** Content types *)

(** For a final status, the typed renderings leave the content type in the
    header map of the writer, and send the headers as they were before. *)
Lemma typed_rendering_sends_old_headers (ct : string) (code : Z) (data : string) (rw0 : ResponseWriter) :
  wroteHeader rw0 = false -> is_informational code = false ->
  Header_Get (header (renderTyped ct code data rw0)) ResponseHeaderContentType = ct /\
  sentHeader (renderTyped ct code data rw0) = header rw0.
Proof.
  intros Hw Hi. split.
  - rewrite renderTyped_header. apply Header_Get_Set.
  - by apply renderTyped_sentHeader.
Qed.

(** C6. The renderings of [String], [Json] and [Xml] are specified to make
    their content type take effect on the response that is sent.  The code
    calls [WriteHeader] first and sets the header after it: with status 200
    on a fresh writer the content type ends up in the header map, and the
    headers that were sent with the status line are empty. *)
Theorem content_type_set_after_headers_sent :
  let sent (resp : HttpResponse unit) :=
    option_map (fun out => (Header_Get (header (rw (snd out))) ResponseHeaderContentType,
                            wroteHeader (rw (snd out)),
                            sentHeader (rw (snd out))))
               (ServeHTTP resp exampleRequest (freshWorld tt)) in
  sent (String_ 200 "hi") = Some ("text/plain", true, ∅) /\
  sent (Json unit marshalBraces 200 tt) = Some ("application/json", true, ∅) /\
  sent (Xml unit marshalBraces 200 tt) = Some ("application/xml", true, ∅).
Proof. repeat split; vm_compute; reflexivity. Qed.

(** ** Marshaling failures *)

Section Marshal.
Context {Ext : Type} {any : Type}.
Variables json_Marshal xml_Marshal : any -> string * option error.

(** A failure of the marshaler is turned into the response of [Error] with
    status 500; [Json] and [Xml] return a response in every case. *)
Lemma Json_marshal_failure (code : Z) (data : any) (jsonData : string) (err : error) :
  json_Marshal data = (jsonData, Some err) ->
  @Json Ext any json_Marshal code data
  = Error StatusInternalServerError (fmt_Errorf_v "json marshall: " err).
Proof. intros H. unfold Json. by rewrite H. Qed.

Lemma Xml_marshal_failure (code : Z) (data : any) (xmlData : string) (err : error) :
  xml_Marshal data = (xmlData, Some err) ->
  @Xml Ext any xml_Marshal code data
  = Error StatusInternalServerError (fmt_Errorf_v "xml marshall: " err).
Proof. intros H. unfold Xml. by rewrite H. Qed.

Lemma Error_is_jsonResponse (code : Z) (err : error) :
  exists body, @Error Ext code err = jsonResponse code body.
Proof. eexists. reflexivity. Qed.

End Marshal.

(** C7. A marshaling failure in [Json] or [Xml] is specified to become an
    error response with status 500 and the escaped message.  The response
    has status 500, and its message is passed through [Error], which leaves
    the double quote of the marshaler's message as it is. *)
Theorem marshal_failure_message_not_escaped :
  let message (prefix : string) := prefix +:+ quoted_message in
  Json (Ext:=unit) unit marshalFails 200 tt
    = jsonResponse 500 (jsonLeft +:+ message "json marshall: " +:+ jsonRight) /\
  Xml (Ext:=unit) unit marshalFails 200 tt
    = jsonResponse 500 (jsonLeft +:+ message "xml marshall: " +:+ jsonRight) /\
  Json (Ext:=unit) unit marshalFails 200 tt
    <> jsonResponse 500 (jsonLeft +:+ escape_quotes (message "json marshall: ") +:+ jsonRight) /\
  Xml (Ext:=unit) unit marshalFails 200 tt
    <> jsonResponse 500 (jsonLeft +:+ escape_quotes (message "xml marshall: ") +:+ jsonRight).
Proof.
  split; [reflexivity|]. split; [reflexivity|].
  split; vm_compute; discriminate.
Qed.

(** ** [Message] *)

(** C10. [Message code message] is specified to render the message verbatim
    as the body of the response, with JSON content type, for every status
    code.  On a writer to which nothing has been sent the rendering panics
    in [WriteHeader] when the code is one it refuses.  For a final status
    that is accepted the bytes of the message are appended to the body as
    they are, nothing wrapped around them and nothing escaped; the content
    type is set in the header map after the status line has gone out, so
    the headers sent are the ones the writer held before and carry no JSON
    content type unless one was set already. *)
Theorem Message_content_type_not_sent {Ext : Type} (code : Z) (message : string)
        (r : http_Request) (w : World Ext) :
  wroteHeader (rw w) = false ->
  (checkWriteHeaderCode code = false ->
   ServeHTTP (Message code message) r w = None) /\
  (checkWriteHeaderCode code = true -> is_informational code = false ->
   exists w', ServeHTTP (Message code message) r w = Some (tt, w') /\
              written (rw w') = written (rw w) +:+ message /\
              Header_Get (header (rw w')) ResponseHeaderContentType = ContentTypeApplicationJson /\
              status (rw w') = code /\
              sentHeader (rw w') = header (rw w) /\
              routeParams w' = routeParams w /\ ext w' = ext w).
Proof.
  intros Hw. unfold Message. rewrite ServeHTTP_jsonResponse.
  unfold accepted. rewrite Hw. cbn [orb]. split.
  - by intros ->.
  - intros -> Hfinal. eexists; split; [reflexivity|]. cbn [on_rw rw routeParams ext].
    rewrite renderTyped_written, renderTyped_header, Header_Get_Set.
    destruct (renderTyped_sentHeader ContentTypeApplicationJson code message (rw w) Hw Hfinal)
      as (-> & -> & _).
    done.
Qed.

(** ** [BasicReader] *)

Lemma BasicReader_Get_cases (reader : BasicReader) (key : string) :
  BasicReader_Get reader key
  = match reader !! key with
    | Some (first :: _) => Some (first, true)
    | _ => Some ("", false)
    end.
Proof.
  unfold BasicReader_Get, BasicReader_GetSlice.
  destruct (reader !! key) as [[|first rest]|]; reflexivity.
Qed.

(** C9. [Get] returns the first value and [true] exactly when the key maps
    to a non-empty list, and the empty string and [false] both for an absent
    key and for an empty list; it never panics on the index. *)
Theorem BasicReader_Get_total (reader : BasicReader) (key : string) :
  (forall first, BasicReader_Get reader key = Some (first, true)
                 <-> exists rest, reader !! key = Some (first :: rest)) /\
  (BasicReader_Get reader key = Some ("", false)
   <-> reader !! key = None \/ reader !! key = Some []) /\
  BasicReader_Get reader key <> None.
Proof.
  rewrite BasicReader_Get_cases.
  destruct (reader !! key) as [[|first rest]|]; (split; [intros x; split|split; [split|]]);
    try discriminate;
    try (intros [? ?]; congruence);
    try (intros [?|?]; congruence);
    try (intros _; (by left) || (by right));
    try (intros [= <-]; by eexists).
Qed.

(** ** The handler chain *)

Section Chain.
Context {Ext : Type}.
Implicit Types (mws : list (Middleware Ext)) (hr : HttpRequest)
         (next : Response Ext) (w : World Ext).

Lemma nest_app mws1 mws2 hr next w :
  nest (mws1 ++ mws2) hr next w
  = (let* inner := nest mws2 hr next in nest mws1 hr inner) w.
Proof.
  revert w. induction mws1 as [|m mws1 IH]; intros w.
  - cbn [app nest]. unfold bind, ret. by destruct (nest mws2 hr next w) as [[? ?]|].
  - cbn [app nest]. unfold bind at 1. rewrite IH. unfold bind.
    by destruct (nest mws2 hr next w) as [[? ?]|].
Qed.

Lemma wrapFrom_prefix mws1 mws2 hr next w :
  wrapFrom (mws1 ++ mws2) hr (length mws1) next w = nest mws1 hr next w.
Proof.
  revert mws2 next w.
  induction mws1 as [|m mws1 IH] using rev_ind; intros mws2 next w.
  - reflexivity.
  - rewrite length_app, Nat.add_comm. cbn [length Nat.add wrapFrom].
    rewrite <- app_assoc. change ([m] ++ mws2)%list with (m :: mws2).
    rewrite list_lookup_middle by done.
    rewrite nest_app. cbn [nest]. unfold bind, ret.
    destruct (m hr next w) as [[next' w']|]; [|done].
    apply IH.
Qed.

(** The loop from the last middleware to the first builds the nest. *)
Lemma wrap_nest mws hr next w : wrap mws hr next w = nest mws hr next w.
Proof.
  unfold wrap. rewrite <- (app_nil_r mws) at 1. apply wrapFrom_prefix.
Qed.

(** The two loops of [ServeHTTP] build one nest: the global middlewares
    around the route's middlewares around the terminal handler. *)
Lemma compose_nest (globals locals : list (Middleware Ext)) endpoint hr w :
  compose globals locals endpoint hr w
  = nest (globals ++ locals) hr (terminal endpoint hr) w.
Proof.
  unfold compose. rewrite nest_app. unfold bind.
  rewrite wrap_nest. destruct (nest locals hr _ w) as [[next' w']|]; [|done].
  apply wrap_nest.
Qed.

End Chain.

(** Middlewares that hand back [next] and touch nothing compose to
    [next]. *)
Lemma nest_transparent {Ext} (mws : list (Middleware Ext)) hr next (w : World Ext) :
  Forall transparent mws -> nest mws hr next w = Some (next, w).
Proof.
  induction 1 as [|m mws Hm _ IH]; [reflexivity|].
  cbn [nest]. unfold bind. rewrite IH. apply Hm.
Qed.

(** ** Dispatch *)

Section DispatchFacts.
Context {Ext MethodIndex Matcher : Type}.
Context (methodToInt : string -> MethodIndex) (path_Clean : string -> string).
Context (findNode : Matcher -> string -> option (@node Ext MethodIndex) * RouteParamReader).
Implicit Types (router : @Router Ext Matcher) (request : http_Request)
         (found : option (@node Ext MethodIndex)) (w : World Ext).

(** [ServeHTTP] stores the bindings of the lookup, then composes and runs
    the chain for the endpoint and the middlewares of the lookup. *)
Lemma Router_ServeHTTP_pipeline router request found params w :
  findNode (matcher router) (sanitizedPath path_Clean router request) = (found, params) ->
  Router_ServeHTTP methodToInt path_Clean findNode router request w
  = pipeline (globalMiddlewares router)
             (routeMiddlewares found (methodToInt (req_Method request)))
             (routeEndpoint router found (methodToInt (req_Method request)))
             (httpRequestOf request) request (set_routeParams params w).
Proof.
  intros Hfind. unfold Router_ServeHTTP, NewHttpRequest.
  unfold bind at 1. unfold bind at 1. unfold modify at 1. unfold ret at 1.
  rewrite Hfind. unfold bind at 1. unfold modify. reflexivity.
Qed.

Lemma routeEndpoint_miss router found method :
  (found = None \/ exists n, found = Some n /\ handler n method = None) ->
  routeEndpoint router found method = RouteNotFoundHandler (Configuration router).
Proof.
  unfold routeEndpoint. intros [->|(n & -> & ->)]; reflexivity.
Qed.

Lemma routeEndpoint_present router found method :
  is_Some (RouteNotFoundHandler (Configuration router)) ->
  is_Some (routeEndpoint router found method).
Proof.
  unfold routeEndpoint. intros Hnf.
  destruct found as [n|]; [|done]. by destruct (handler n method).
Qed.

(** C2. When the lookup returns no node, or a node whose table has no
    endpoint at the index of the request's method (whatever the method
    string is), the endpoint that is dispatched is the configured
    not-found handler, and [ServeHTTP] invokes it: the chain it composes
    and runs is the middlewares around a handler that calls the not-found
    handler with the request and renders the response it returns, so that
    behind middlewares that hand back [next] serving the request is
    calling the not-found handler and rendering its response.  With a
    not-found handler configured, no lookup result and no method leave the
    dispatched endpoint [nil]. *)
Theorem not_found_fallback router request found params :
  findNode (matcher router) (sanitizedPath path_Clean router request) = (found, params) ->
  (found = None \/
   exists n, found = Some n /\ handler n (methodToInt (req_Method request)) = None) ->
  routeEndpoint router found (methodToInt (req_Method request))
    = RouteNotFoundHandler (Configuration router) /\
  (forall w,
     Router_ServeHTTP methodToInt path_Clean findNode router request w
     = (let* composed :=
          nest (globalMiddlewares router
                ++ routeMiddlewares found (methodToInt (req_Method request)))%list
               (httpRequestOf request)
               (Some (HttpResponseFunc (fun r =>
                  let* resp := call_Endpoint (RouteNotFoundHandler (Configuration router))
                                             (httpRequestOf request) in
                  call_ServeHTTP resp r))) in
        call_ServeHTTP composed request) (set_routeParams params w)) /\
  (Forall transparent (globalMiddlewares router) ->
   Forall transparent (routeMiddlewares found (methodToInt (req_Method request))) ->
   forall w,
     Router_ServeHTTP methodToInt path_Clean findNode router request w
     = (let* resp := call_Endpoint (RouteNotFoundHandler (Configuration router))
                                   (httpRequestOf request) in
        call_ServeHTTP resp request) (set_routeParams params w)) /\
  (is_Some (RouteNotFoundHandler (Configuration router)) ->
   forall found' method', is_Some (routeEndpoint router found' method')).
Proof.
  intros Hfind Hmiss.
  assert (Hserve : forall w,
    Router_ServeHTTP methodToInt path_Clean findNode router request w
    = (let* composed :=
         nest (globalMiddlewares router
               ++ routeMiddlewares found (methodToInt (req_Method request)))%list
              (httpRequestOf request)
              (Some (HttpResponseFunc (fun r =>
                 let* resp := call_Endpoint (RouteNotFoundHandler (Configuration router))
                                            (httpRequestOf request) in
                 call_ServeHTTP resp r))) in
       call_ServeHTTP composed request) (set_routeParams params w)).
  { intros w. rewrite (Router_ServeHTTP_pipeline _ _ _ _ _ Hfind).
    rewrite routeEndpoint_miss by done.
    unfold pipeline, bind. by rewrite compose_nest. }
  split; [by apply routeEndpoint_miss|]. split; [exact Hserve|]. split.
  - intros Hgs Hls w. rewrite Hserve. unfold bind at 1.
    rewrite nest_transparent by (by apply Forall_app).
    reflexivity.
  - intros Hnf found' method'. by apply routeEndpoint_present.
Qed.

End DispatchFacts.

(** ** Short circuit *)

Section ShortCircuit.
Context {Ext : Type}.
Implicit Types (mws outer inner : list (Middleware Ext)) (hr : HttpRequest)
         (next : Response Ext) (w : World Ext).





End ShortCircuit.


(** ** Order of execution *)

Lemma nest_logOnEntry (names : list string) hr (next : Response (list string)) w :
  exists composed,
    nest (map logOnEntry names) hr next w = Some (composed, w) /\
    forall r w0, call_ServeHTTP composed r w0
                 = call_ServeHTTP next r (mkWorld (rw w0) (routeParams w0) (ext w0 ++ names)%list).
Proof.
  induction names as [|name names (inner & Hnest & Hrun)].
  - exists next. split; [reflexivity|]. intros r [? ? ?]. cbn [rw routeParams ext].
    by rewrite app_nil_r.
  - eexists. cbn [map nest]. unfold bind at 1. rewrite Hnest. split; [reflexivity|].
    intros r w0. cbn [call_ServeHTTP ServeHTTP]. unfold bind, modify. rewrite Hrun.
    cbn [on_ext rw routeParams ext]. by rewrite <- app_assoc.
Qed.

Section EntryOrder.
Context {MethodIndex Matcher : Type}.
Context (methodToInt : string -> MethodIndex) (path_Clean : string -> string).
Context (findNode : Matcher -> string -> option (@node (list string) MethodIndex) * RouteParamReader).

(** C1. With global middlewares [gs] and, on the matched route, local
    middlewares [ls], each logging on entry, and an endpoint that logs
    when it runs, serving a request extends the log by the globals from
    first to last, then the locals from first to last, then the
    endpoint.  For any middlewares, the two loops wrap the locals last to
    first around the endpoint and the globals last to first around that:
    the chain is the nest of the globals followed by the locals. *)
Theorem ServeHTTP_entry_order (router : @Router (list string) Matcher) (request : http_Request)
        (n : @node (list string) MethodIndex) (params : RouteParamReader)
        (gs ls : list string) (e : string) (resp : Response (list string))
        (w : World (list string)) :
  findNode (matcher router) (sanitizedPath path_Clean router request) = (Some n, params) ->
  globalMiddlewares router = map logOnEntry gs ->
  middlewares n (methodToInt (req_Method request)) = map logOnEntry ls ->
  handler n (methodToInt (req_Method request)) = Some (loggingEndpoint e resp) ->
  quiet resp ->
  (forall (globals locals : list (Middleware (list string))) endpoint hr w0,
     compose globals locals endpoint hr w0
     = nest (globals ++ locals) hr (terminal endpoint hr) w0) /\
  exists w',
    Router_ServeHTTP methodToInt path_Clean findNode router request w = Some (tt, w') /\
    ext w' = (ext w ++ gs ++ ls ++ [e])%list.
Proof.
  intros Hfind Hgs Hls He Hquiet. split; [intros; apply compose_nest|].
  rewrite (Router_ServeHTTP_pipeline _ _ _ _ _ _ _ _ Hfind).
  unfold pipeline. unfold bind at 1. rewrite compose_nest.
  unfold routeMiddlewares, routeEndpoint. rewrite Hgs, Hls, He, <- map_app.
  destruct (nest_logOnEntry (gs ++ ls)%list (httpRequestOf request)
              (terminal (Some (loggingEndpoint e resp)) (httpRequestOf request))
              (set_routeParams params w)) as (composed & -> & Hrun).
  rewrite Hrun. cbn [call_ServeHTTP terminal ServeHTTP call_Endpoint].
  unfold loggingEndpoint. unfold bind, modify, ret.
  match goal with |- context [call_ServeHTTP resp request ?w1] =>
    destruct (Hquiet request w1) as (w' & -> & Hext) end.
  exists w'. split; [reflexivity|]. rewrite Hext.
  cbn [on_ext set_routeParams rw routeParams ext]. by rewrite <- !app_assoc.
Qed.

End EntryOrder.

(** ** Route parameters *)

Lemma nest_probe (names : list string) hr (next : Response Readings) w :
  exists composed,
    nest (map probe names) hr next w
    = Some (composed,
            mkWorld (rw w) (routeParams w)
                    (ext w ++ map (reading (routeParams w)) (rev names))%list) /\
    forall r w0,
      call_ServeHTTP composed r w0
      = call_ServeHTTP next r
          (mkWorld (rw w0) (routeParams w0)
                   (ext w0 ++ map (reading (routeParams w0)) names)%list).
Proof.
  induction names as [|name names (inner & Hnest & Hrun)].
  - exists next. split.
    + destruct w. cbn. by rewrite app_nil_r.
    + intros r [? ? ?]. cbn. by rewrite app_nil_r.
  - eexists. cbn [map nest]. unfold bind at 1. rewrite Hnest. split.
    + unfold probe, readParams, bind, modify, ret.
      cbn [rev]. rewrite map_app, app_assoc. reflexivity.
    + intros r w0. cbn [call_ServeHTTP ServeHTTP]. unfold readParams, bind, modify.
      rewrite Hrun. unfold on_ext. cbn [rw routeParams ext map reading].
      by rewrite <- app_assoc.
Qed.

Section RouteParams.
Context {MethodIndex Matcher : Type}.
Context (methodToInt : string -> MethodIndex) (path_Clean : string -> string).
Context (findNode : Matcher -> string -> option (@node Readings MethodIndex) * RouteParamReader).

(** C8. The bindings the lookup returns are stored in [RouteParams] before
    the first middleware is called: whatever the middlewares are, the chain
    is composed and run from a world in which [RouteParams] holds them.
    With middlewares that read them, both
    while the chain is composed and on entry of their handlers, and an
    endpoint that reads them, every reading is of exactly the bindings of
    the lookup: the route's middlewares from last to first and then the
    global ones from last to first as they are called, then the handlers
    of the global ones, of the route's ones, and the endpoint. *)
Theorem route_params_observed (router : @Router Readings Matcher) (request : http_Request)
        (found : option (@node Readings MethodIndex)) (params : RouteParamReader)
        (gs ls : list string) (e : string) (resp : Response Readings)
        (w : World Readings) :
  findNode (matcher router) (sanitizedPath path_Clean router request) = (found, params) ->
  globalMiddlewares router = map probe gs ->
  routeMiddlewares found (methodToInt (req_Method request)) = map probe ls ->
  routeEndpoint router found (methodToInt (req_Method request)) = Some (probeEndpoint e resp) ->
  quiet resp ->
  (forall (router' : @Router Readings Matcher) request' found' params' w0,
     findNode (matcher router') (sanitizedPath path_Clean router' request') = (found', params') ->
     routeParams (set_routeParams params' w0) = params' /\
     Router_ServeHTTP methodToInt path_Clean findNode router' request' w0
     = pipeline (globalMiddlewares router')
                (routeMiddlewares found' (methodToInt (req_Method request')))
                (routeEndpoint router' found' (methodToInt (req_Method request')))
                (httpRequestOf request') request' (set_routeParams params' w0)) /\
  exists w',
    Router_ServeHTTP methodToInt path_Clean findNode router request w = Some (tt, w') /\
    ext w' = (ext w ++ map (reading params) (rev ls ++ rev gs ++ gs ++ ls ++ [e]))%list.
Proof.
  intros Hfind Hgs Hls He Hquiet. split.
  { intros router' request' found' params' w0 Hfind'. split; [reflexivity|].
    by apply Router_ServeHTTP_pipeline. }
  rewrite (Router_ServeHTTP_pipeline _ _ _ _ _ _ _ _ Hfind).
  unfold pipeline. unfold bind at 1. rewrite compose_nest.
  rewrite Hgs, Hls, He, <- map_app.
  destruct (nest_probe (gs ++ ls)%list (httpRequestOf request)
              (terminal (Some (probeEndpoint e resp)) (httpRequestOf request))
              (set_routeParams params w)) as (composed & -> & Hrun).
  rewrite Hrun. cbn [call_ServeHTTP terminal ServeHTTP call_Endpoint].
  unfold probeEndpoint, readParams. unfold bind, modify, ret.
  match goal with |- context [call_ServeHTTP resp request ?w1] =>
    destruct (Hquiet request w1) as (w' & -> & Hext) end.
  exists w'. split; [reflexivity|]. rewrite Hext.
  cbn [on_ext set_routeParams rw routeParams ext].
  rewrite rev_app_distr, !map_app, <- !app_assoc. reflexivity.
Qed.

End RouteParams.

(** ** [WithHeaders] *)

Lemma length_zero_empty (s : string) : (String.length s =? 0)%nat = String.eqb s "".
Proof. by destruct s. Qed.

Lemma Header_Get_canonical (h : Header) (k k' : string) :
  CanonicalMIMEHeaderKey k = CanonicalMIMEHeaderKey k' -> Header_Get h k = Header_Get h k'.
Proof. unfold Header_Get. by intros ->. Qed.

Lemma setHeaderIfUnset_Get (h : Header) (k v key : string) :
  Header_Get (setHeaderIfUnset h (k, v)) key
  = if String.eqb (CanonicalMIMEHeaderKey k) (CanonicalMIMEHeaderKey key)
       && String.eqb (Header_Get h key) ""
    then v
    else Header_Get h key.
Proof.
  unfold setHeaderIfUnset. cbn [fst snd]. rewrite length_zero_empty.
  destruct (String.eqb_spec (CanonicalMIMEHeaderKey k) (CanonicalMIMEHeaderKey key)) as [Heq|Hne].
  - rewrite (Header_Get_canonical h k key Heq). cbn [andb].
    destruct (String.eqb (Header_Get h key) ""); [|done].
    rewrite <- (Header_Get_canonical _ k key Heq). apply Header_Get_Set.
  - cbn [andb]. destruct (String.eqb (Header_Get h k) ""); [|done].
    by apply Header_Get_Set_other.
Qed.

(** First write wins: a header that is set is kept, a header that is unset
    gets the first value the entries have for it. *)
Lemma setHeaders_Get (headers : list (string * string)) (h : Header) (key : string) :
  Header_Get (setHeaders headers h) key
  = if String.eqb (Header_Get h key) "" then firstWrite key headers else Header_Get h key.
Proof.
  revert h. induction headers as [|[k v] rest IH]; intros h.
  - cbn. by destruct (String.eqb_spec (Header_Get h key) "") as [->|].
  - unfold setHeaders. cbn [fold_left]. fold (setHeaders rest (setHeaderIfUnset h (k, v))).
    rewrite IH, setHeaderIfUnset_Get. cbn [firstWrite].
    destruct (String.eqb (CanonicalMIMEHeaderKey k) (CanonicalMIMEHeaderKey key)),
             (String.eqb_spec (Header_Get h key) "") as [->|Hset]; cbn [andb negb].
    + by destruct (String.eqb_spec v "") as [->|].
    + by destruct (String.eqb_spec (Header_Get h key) "").
    + reflexivity.
    + by destruct (String.eqb_spec (Header_Get h key) "").
Qed.

(** C5, as amended.  [WithHeaders] writes its headers before the inner
    response renders, and writes a header only when it is not set on the
    writer at that moment.  A header the inner response sets in its own
    rendering, whatever it finds, ends with the value of the inner
    response.  A header that was set before is kept, and one that was not
    gets the wrapper's first value; between two nested wrappers the outer
    one writes first, so its value stays and the inner wrapper only adds
    the headers the outer one left unset. *)
Theorem WithHeaders_first_write_wins {Ext : Type} (headers : list (string * string))
        (inner : HttpResponse Ext) (r : http_Request) (w w' : World Ext) (key v : string) :
  (forall w0 w1, ServeHTTP inner r w0 = Some (tt, w1) ->
                 Header_Get (header (rw w1)) key = v) ->
  ServeHTTP (WithHeaders headers (Some inner)) r w = Some (tt, w') ->
  Header_Get (header (rw w')) key = v /\
  (forall k,
     Header_Get (setHeaders headers (header (rw w))) k
     = if String.eqb (Header_Get (header (rw w)) k) ""
       then firstWrite k headers
       else Header_Get (header (rw w)) k) /\
  (forall innerHeaders k,
     exists w2,
       ServeHTTP (WithHeaders headers (Some (WithHeaders innerHeaders None))) r w
       = Some (tt, w2) /\
       Header_Get (header (rw w2)) k
       = if String.eqb (Header_Get (header (rw w)) k) ""
         then (if String.eqb (firstWrite k headers) ""
               then firstWrite k innerHeaders
               else firstWrite k headers)
         else Header_Get (header (rw w)) k).
Proof.
  intros Hinner Hrun. split; [|split].
  - unfold WithHeaders in Hrun. rewrite ServeHTTP_headerResponse in Hrun.
    by eapply Hinner.
  - intros k. apply setHeaders_Get.
  - intros innerHeaders k. unfold WithHeaders.
    rewrite !ServeHTTP_headerResponse. eexists. split; [reflexivity|].
    cbn [on_rw rw set_header header]. rewrite !setHeaders_Get.
    destruct (String.eqb_spec (Header_Get (header (rw w)) k) "") as [Hunset|Hset].
    + reflexivity.
    + by destruct (String.eqb_spec (Header_Get (header (rw w)) k) "").
Qed.

(** C5, counterexample.  The inner layer [WithHeaders] with [X] at 2 sets
    [X] to 2 when it is rendered on a fresh writer; inside an outer
    [WithHeaders] with [X] at 1 the header ends at 1. *)
Lemma WithHeaders_outer_value_stays :
  let innerLayer : HttpResponse unit := WithHeaders [("X", "2")] None in
  let X (out : option (unit * World unit)) :=
    option_map (fun o => Header_Get (header (rw (snd o))) "X") out in
  X (ServeHTTP innerLayer exampleRequest (freshWorld tt)) = Some "2" /\
  X (ServeHTTP (WithHeaders [("X", "1")] (Some innerLayer)) exampleRequest (freshWorld tt))
    = Some "1" /\
  ~ inner_value_kept_claim unit.
Proof.
  split; [vm_compute; reflexivity|]. split; [vm_compute; reflexivity|].
  intros Hclaim.
  epose proof (Hclaim [("X", "1")] (WithHeaders [("X", "2")] None) exampleRequest
                      (freshWorld tt) _ _ "X" eq_refl eq_refl _ eq_refl) as Hkept.
  vm_compute in Hkept. discriminate Hkept.
  Unshelve. vm_compute. discriminate.
Qed.

(** ** The theorems at concrete routers *)

Lemma passNext_transparent {Ext} : transparent (Ext:=Ext) More.passNext.
Proof. intros hr next w. reflexivity. Qed.

Lemma Status_quiet {Ext} (code : Z) :
  checkWriteHeaderCode code = true -> quiet (Ext:=Ext) (Some (Status code)).
Proof.
  intros Hcode r w. cbn [call_ServeHTTP]. unfold Status.
  rewrite ServeHTTP_statusResponse. unfold accepted. rewrite Hcode, orb_true_r.
  eexists. split; reflexivity.
Qed.


(** A middleware that runs [next] in its own body does not compose
    blindly, whether it returns afterwards or panics: handed a [nil]
    handler it panics in every case. *)
Lemma runs_next_not_blind {Ext} hr (after : M Ext (Response Ext)) (w : World Ext) :
  ~ composes_blind hr (fun hr0 next => call_ServeHTTP next (Request hr0) ;; after).
Proof.
  intros Hblind. destruct (Hblind w) as (w' & Hall).
  destruct (Hall None) as (resp & Hrun). discriminate Hrun.
Qed.


Lemma String_sets_content_type {Ext} (code : Z) (data : string) (r : http_Request)
      (w0 w1 : World Ext) :
  ServeHTTP (String_ code data) r w0 = Some (tt, w1) ->
  Header_Get (header (rw w1)) ResponseHeaderContentType = ContentTypeTextPlain.
Proof.
  unfold String_. rewrite ServeHTTP_stringResponse.
  destruct (accepted code (rw w0)); [|done]. intros [= <-].
  cbn [on_rw rw]. rewrite renderTyped_header. apply Header_Get_Set.
Qed.

Lemma ServeHTTP_entry_order_witness :
  exists w',
    Router_ServeHTTP Fixture.methodToInt Fixture.path_Clean Fixture.findNode
                     Fixture.loggedRouter Fixture.getUser (freshWorld []) = Some (tt, w') /\
    ext w' = ([] ++ ["G1"; "G2"] ++ ["L1"; "L2"] ++ ["endpoint"])%list.
Proof.
  eapply proj2, (ServeHTTP_entry_order Fixture.methodToInt Fixture.path_Clean
           Fixture.findNode Fixture.loggedRouter Fixture.getUser Fixture.loggedNode
           {["id" := "42"]} ["G1"; "G2"] ["L1"; "L2"] "endpoint" (Some (Status 200))
           (freshWorld [])).
  - reflexivity.
  - reflexivity.
  - reflexivity.
  - reflexivity.
  - by apply Status_quiet.
Defined.

Lemma not_found_fallback_witness :
  routeEndpoint More.fallbackRouter (Some More.fallbackNode)
                (Fixture.methodToInt (req_Method Fixture.traceUser))
  = Some (loggingEndpoint "not found" (Some (Status 404))) /\
  Router_ServeHTTP Fixture.methodToInt Fixture.path_Clean Fixture.findNode
                   More.fallbackRouter Fixture.traceUser (freshWorld [])
  = Some (tt, More.fallbackServed).
Proof.
  destruct (not_found_fallback Fixture.methodToInt Fixture.path_Clean Fixture.findNode
              More.fallbackRouter Fixture.traceUser (Some More.fallbackNode) {["id" := "42"]}
              eq_refl
              (or_intror (ex_intro _ More.fallbackNode (conj eq_refl eq_refl))))
    as (Hendpoint & _ & Hserve & _).
  split; [exact Hendpoint|].
  rewrite Hserve.
  - reflexivity.
  - constructor; [apply passNext_transparent|constructor].
  - constructor; [apply passNext_transparent|constructor].
Defined.


Lemma Message_content_type_not_sent_witness :
  ServeHTTP (Message 0 "hi") exampleRequest (freshWorld tt) = None /\
  exists w', ServeHTTP (Message 200 "hi") exampleRequest (freshWorld tt) = Some (tt, w') /\
             written (rw w') = written (rw (freshWorld tt)) +:+ "hi" /\
             Header_Get (header (rw w')) ResponseHeaderContentType = ContentTypeApplicationJson /\
             status (rw w') = 200 /\
             sentHeader (rw w') = header (rw (freshWorld tt)) /\
             routeParams w' = routeParams (freshWorld tt) /\ ext w' = ext (freshWorld tt).
Proof.
  split.
  - exact (proj1 (Message_content_type_not_sent 0 "hi" exampleRequest (freshWorld tt) eq_refl)
                 eq_refl).
  - exact (proj2 (Message_content_type_not_sent 200 "hi" exampleRequest (freshWorld tt) eq_refl)
                 eq_refl eq_refl).
Defined.

Lemma WithHeaders_first_write_wins_witness :
  ServeHTTP (WithHeaders Fixture.jsonDefault (Some (String_ 200 "hi")))
            exampleRequest (freshWorld tt) = Some (tt, Fixture.wrappedString) /\
  Header_Get (header (rw Fixture.wrappedString)) "Content-Type" = "text/plain".
Proof.
  split; [reflexivity|].
  exact (proj1 (WithHeaders_first_write_wins Fixture.jsonDefault (String_ 200 "hi")
                  exampleRequest (freshWorld tt) Fixture.wrappedString
                  "Content-Type" "text/plain"
                  (String_sets_content_type 200 "hi" exampleRequest)
                  eq_refl)).
Defined.

Lemma route_params_observed_witness :
  exists w',
    Router_ServeHTTP Fixture.methodToInt Fixture.path_Clean Fixture.findNode
                     Fixture.probedRouter Fixture.getUser (freshWorld []) = Some (tt, w') /\
    ext w' = ([] ++ map (reading {["id" := "42"]})
                        (rev ["L1"; "L2"] ++ rev ["G1"; "G2"] ++ ["G1"; "G2"] ++ ["L1"; "L2"]
                         ++ ["endpoint"]))%list.
Proof.
  eapply proj2, (route_params_observed Fixture.methodToInt Fixture.path_Clean Fixture.findNode
           Fixture.probedRouter Fixture.getUser (Some Fixture.probedNode) {["id" := "42"]}
           ["G1"; "G2"] ["L1"; "L2"] "endpoint" (Some (Status 200)) (freshWorld [])).
  - reflexivity.
  - reflexivity.
  - reflexivity.
  - reflexivity.
  - by apply Status_quiet.
Defined.


(** * Further properties of the code *)

(** ** Rendering of the responses of response.go *)

Lemma extends_refl (rw0 : ResponseWriter) : extends rw0 rw0.
Proof. split; [exists ""; by rewrite append_nil_r|done]. Qed.

Lemma extends_trans (rw0 rw1 rw2 : ResponseWriter) :
  extends rw0 rw1 -> extends rw1 rw2 -> extends rw0 rw2.
Proof.
  intros [[m1 H1] K1] [[m2 H2] K2]. split.
  - exists (m1 +:+ m2). by rewrite H2, H1, append_assoc.
  - intros Hw. destruct (K1 Hw) as (Hw1 & Hs1 & Hh1).
    destruct (K2 Hw1) as (Hw2 & Hs2 & Hh2). by rewrite Hs2, Hh2.
Qed.

Lemma sendHeader_extends (code : Z) (rw0 : ResponseWriter) :
  extends rw0 (sendHeader code rw0).
Proof.
  unfold sendHeader. destruct (wroteHeader rw0) eqn:Hw; [apply extends_refl|].
  split; [|by rewrite Hw].
  exists "". destruct (is_informational code); cbn; by rewrite append_nil_r.
Qed.

Lemma sendHeader_sent (code : Z) (rw0 : ResponseWriter) :
  wroteHeader rw0 = true -> wroteHeader (sendHeader code rw0) = true.
Proof. intros Hw. unfold sendHeader. by rewrite Hw. Qed.

Lemma set_header_extends (f : Header -> Header) (rw0 : ResponseWriter) :
  extends rw0 (set_header f rw0).
Proof. split; [exists ""; cbn; by rewrite append_nil_r|done]. Qed.

Lemma Write_extends (data : string) (rw0 : ResponseWriter) :
  extends rw0 (Write data rw0).
Proof.
  unfold Write. destruct (wroteHeader rw0) eqn:Hw.
  - split; [by exists data|]. cbn. by rewrite Hw.
  - split; [|by rewrite Hw].
    exists data. unfold sendHeader. rewrite Hw. reflexivity.
Qed.

Lemma renderTyped_extends (ct : string) (code : Z) (data : string) (rw0 : ResponseWriter) :
  extends rw0 (renderTyped ct code data rw0).
Proof.
  unfold renderTyped.
  eapply extends_trans; [apply sendHeader_extends|].
  eapply extends_trans; [apply set_header_extends|apply Write_extends].
Qed.

Lemma WriteHeader_accepted (code : Z) (rw0 : ResponseWriter) :
  checkWriteHeaderCode code = true -> WriteHeader code rw0 = Some (sendHeader code rw0).
Proof.
  intros Hcode. unfold WriteHeader, sendHeader. rewrite Hcode.
  by destruct (wroteHeader rw0).
Qed.

Lemma accepted_cases (code : Z) (rw0 : ResponseWriter) :
  wroteHeader rw0 = true \/ checkWriteHeaderCode code = true ->
  accepted code rw0 = true.
Proof. unfold accepted. intros [->| ->]; [done|apply orb_true_r]. Qed.

(** Rendering a response without handlers inside, on a writer whose status
    line is sent or with status codes that [WriteHeader] accepts, does not
    panic, leaves the route parameters and the rest of the program state
    alone, and changes the writer only by [extends]. *)
Lemma ServeHTTP_plain {Ext} (resp : HttpResponse Ext) :
  plain resp = true ->
  forall r (w : World Ext),
  wroteHeader (rw w) = true \/ validCodes resp = true ->
  exists w', ServeHTTP resp r w = Some (tt, w') /\
             routeParams w' = routeParams w /\ ext w' = ext w /\
             extends (rw w) (rw w').
Proof.
  revert resp. fix IH 1.
  intros [data|code [inner|]|headers [inner|]|code data|code data|code data|code data|f] Hp r w Hv;
    try discriminate Hp; cbn [validCodes] in Hv.
  - eexists. do 3 (split; [reflexivity|]). apply Write_extends.
  - rewrite ServeHTTP_statusResponse, accepted_cases
      by (destruct Hv as [?|[? ?]%andb_true_iff]; auto).
    destruct (IH inner Hp r (on_rw (sendHeader code) w)) as (w' & -> & Hrp & Hext & Hrw).
    { destruct Hv as [Hw|[_ ?]%andb_true_iff]; [left|by right].
      cbn [on_rw rw]. by apply sendHeader_sent. }
    exists w'. do 3 (split; [done|]).
    eapply extends_trans; [apply sendHeader_extends|exact Hrw].
  - rewrite ServeHTTP_statusResponse, accepted_cases by done.
    eexists. do 3 (split; [reflexivity|]). apply sendHeader_extends.
  - rewrite ServeHTTP_headerResponse.
    destruct (IH inner Hp r (on_rw (set_header (setHeaders headers)) w))
      as (w' & -> & Hrp & Hext & Hrw); [done|].
    exists w'. do 3 (split; [done|]).
    eapply extends_trans; [apply set_header_extends|exact Hrw].
  - eexists. do 3 (split; [reflexivity|]). apply set_header_extends.
  - rewrite ServeHTTP_stringResponse, accepted_cases by done.
    eexists. do 3 (split; [reflexivity|]). apply renderTyped_extends.
  - rewrite ServeHTTP_htmlResponse, accepted_cases by done.
    eexists. do 3 (split; [reflexivity|]). apply renderTyped_extends.
  - rewrite ServeHTTP_jsonResponse, accepted_cases by done.
    eexists. do 3 (split; [reflexivity|]). apply renderTyped_extends.
  - rewrite ServeHTTP_xmlResponse, accepted_cases by done.
    eexists. do 3 (split; [reflexivity|]). apply renderTyped_extends.
Qed.

Lemma ServeHTTP_leadingStatus {Ext} (resp : HttpResponse Ext) (code : Z) r (w : World Ext) :
  plain resp = true -> leadingStatus resp = Some code ->
  wroteHeader (rw w) = false ->
  checkWriteHeaderCode code = true -> is_informational code = false ->
  exists w', ServeHTTP resp r w = Some (tt, w') /\
             wroteHeader (rw w') = true /\ status (rw w') = code /\
             sentHeader (rw w') = header (rw w).
Proof.
  intros Hp Hlead Hw Hcode Hfinal.
  assert (Hcommit : wroteHeader (sendHeader code (rw w)) = true /\
                    status (sendHeader code (rw w)) = code /\
                    sentHeader (sendHeader code (rw w)) = header (rw w)).
  { unfold sendHeader. by rewrite Hw, Hfinal. }
  destruct Hcommit as (Hc1 & Hc2 & Hc3).
  assert (Hacc : accepted code (rw w) = true) by (apply accepted_cases; by right).
  destruct resp as [data|c [inner|]|headers inner|c data|c data|c data|c data|f];
    try discriminate Hlead; injection Hlead as ->.
  - rewrite ServeHTTP_statusResponse, Hacc.
    destruct (ServeHTTP_plain inner Hp r (on_rw (sendHeader code) w) (or_introl Hc1))
      as (w' & -> & _ & _ & _ & Hkeep).
    destruct (Hkeep Hc1) as (K1 & K2 & K3). exists w'.
    split; [reflexivity|]. cbn [on_rw rw] in *. by rewrite K2, K3.
  - rewrite ServeHTTP_statusResponse, Hacc. eexists. split; [reflexivity|]. done.
  - rewrite ServeHTTP_stringResponse, Hacc. eexists. split; [reflexivity|]. cbn [on_rw rw].
    destruct (renderTyped_sentHeader ContentTypeTextPlain code data (rw w) Hw Hfinal)
      as (-> & -> & ->). done.
  - rewrite ServeHTTP_htmlResponse, Hacc. eexists. split; [reflexivity|]. cbn [on_rw rw].
    destruct (renderTyped_sentHeader ContentTypeTextPlain code data (rw w) Hw Hfinal)
      as (-> & -> & ->). done.
  - rewrite ServeHTTP_jsonResponse, Hacc. eexists. split; [reflexivity|]. cbn [on_rw rw].
    destruct (renderTyped_sentHeader ContentTypeApplicationJson code data (rw w) Hw Hfinal)
      as (-> & -> & ->). done.
  - rewrite ServeHTTP_xmlResponse, Hacc. eexists. split; [reflexivity|]. cbn [on_rw rw].
    destruct (renderTyped_sentHeader ContentTypeApplicationXml code data (rw w) Hw Hfinal)
      as (-> & -> & ->). done.
Qed.

(** X1. Rendering a response built from the structs of response.go, with no
    handler function inside and with status codes that [WriteHeader]
    accepts (100 to 999), does not panic, leaves the route parameters and
    the rest of the program state as they are, and only appends to the
    body. *)
Theorem plain_response_appends {Ext} (resp : HttpResponse Ext) r (w : World Ext) :
  plain resp = true ->
  validCodes resp = true ->
  exists w', ServeHTTP resp r w = Some (tt, w') /\
             routeParams w' = routeParams w /\ ext w' = ext w /\
             exists more, written (rw w') = written (rw w) +:+ more.
Proof.
  intros Hp Hv.
  destruct (ServeHTTP_plain resp Hp r w (or_intror Hv)) as (w' & Hrun & Hrp & Hext & Hmore & _).
  by exists w'.
Qed.

(** X2. Once the status line has been sent, rendering a response without
    handlers inside changes neither the status nor the headers that were
    sent, whatever status and headers the response carries. *)
Theorem sent_status_is_final {Ext} (resp : HttpResponse Ext) r (w : World Ext) :
  plain resp = true ->
  wroteHeader (rw w) = true ->
  exists w', ServeHTTP resp r w = Some (tt, w') /\
             wroteHeader (rw w') = true /\
             status (rw w') = status (rw w) /\
             sentHeader (rw w') = sentHeader (rw w).
Proof.
  intros Hp Hw.
  destruct (ServeHTTP_plain resp Hp r w (or_introl Hw)) as (w' & Hrun & _ & _ & _ & Hkeep).
  exists w'. split; [done|]. by apply Hkeep.
Qed.

(** X3. On a writer to which nothing has been sent, a response that starts
    with a final status that [WriteHeader] accepts sends that status
    together with the headers as they were when the response started to
    render: the statuses and headers of the responses nested in it, and the
    content type it sets itself, are not sent. *)
Theorem leading_status_is_sent {Ext} (resp : HttpResponse Ext) (code : Z) r (w : World Ext) :
  plain resp = true ->
  leadingStatus resp = Some code ->
  wroteHeader (rw w) = false ->
  checkWriteHeaderCode code = true ->
  is_informational code = false ->
  exists w', ServeHTTP resp r w = Some (tt, w') /\
             status (rw w') = code /\
             sentHeader (rw w') = header (rw w).
Proof.
  intros Hp Hlead Hw Hcode Hfinal.
  destruct (ServeHTTP_leadingStatus resp code r w Hp Hlead Hw Hcode Hfinal)
    as (w' & ? & ? & ? & ?).
  by exists w'.
Qed.

(** X4. [WithHeaders] around a response that starts with a final status
    that [WriteHeader] accepts does get its headers sent: the headers sent
    are the ones the loop of the wrapper leaves, so a header that was unset
    is sent with the wrapper's first value for it. *)
Theorem WithHeaders_outside_is_sent {Ext} (headers : list (string * string))
        (resp : HttpResponse Ext) (code : Z) r (w : World Ext) :
  plain resp = true ->
  leadingStatus resp = Some code ->
  wroteHeader (rw w) = false ->
  checkWriteHeaderCode code = true ->
  is_informational code = false ->
  exists w', ServeHTTP (WithHeaders headers (Some resp)) r w = Some (tt, w') /\
             status (rw w') = code /\
             sentHeader (rw w') = setHeaders headers (header (rw w)) /\
             forall k, Header_Get (header (rw w)) k = "" ->
                       Header_Get (sentHeader (rw w')) k = firstWrite k headers.
Proof.
  intros Hp Hlead Hw Hcode Hfinal. unfold WithHeaders. rewrite ServeHTTP_headerResponse.
  destruct (ServeHTTP_leadingStatus resp code r (on_rw (set_header (setHeaders headers)) w)
              Hp Hlead Hw Hcode Hfinal) as (w' & -> & _ & Hs & Hh).
  exists w'. split; [reflexivity|]. split; [done|]. split; [done|].
  intros k Hk. rewrite Hh. cbn [on_rw rw set_header header].
  by rewrite setHeaders_Get, Hk.
Qed.

(** ** The order in which [WithHeaders] visits its map *)

Lemma setHeaderIfUnset_comm (h : Header) (a b : string * string) :
  CanonicalMIMEHeaderKey (fst a) <> CanonicalMIMEHeaderKey (fst b) ->
  setHeaderIfUnset (setHeaderIfUnset h a) b = setHeaderIfUnset (setHeaderIfUnset h b) a.
Proof.
  intros Hne. destruct a as [ka va], b as [kb vb]. cbn [fst] in Hne.
  unfold setHeaderIfUnset. cbn [fst snd].
  destruct (String.length (Header_Get h ka) =? 0)%nat eqn:Ha,
           (String.length (Header_Get h kb) =? 0)%nat eqn:Hb.
  all: cbv iota;
    rewrite ?(Header_Get_Set_other h ka kb va Hne),
            ?(Header_Get_Set_other h kb ka vb (not_eq_sym Hne)), ?Ha, ?Hb;
    try reflexivity.
  unfold Header_Set. by apply insert_insert_ne.
Qed.

Lemma setHeaders_cons (kv : string * string) (headers : list (string * string)) (h : Header) :
  setHeaders (kv :: headers) h = setHeaders headers (setHeaderIfUnset h kv).
Proof. reflexivity. Qed.

(** X5. When the keys of the map differ also after canonicalisation, the
    header map that [WithHeaders] leaves does not depend on the order in
    which the loop visits the entries. *)
Theorem setHeaders_order_irrelevant (headers headers' : list (string * string)) (h : Header) :
  Permutation headers headers' ->
  distinctCanonical headers ->
  setHeaders headers h = setHeaders headers' h.
Proof.
  intros Hperm. revert h. unfold distinctCanonical.
  induction Hperm as [|x l l' Hperm IH|x y l|l l' l'' H1 IH1 H2 IH2]; intros h Hnd.
  - reflexivity.
  - rewrite !setHeaders_cons. apply IH. cbn [map] in Hnd. by apply NoDup_cons in Hnd as [_ ?].
  - rewrite !setHeaders_cons. f_equal. apply setHeaderIfUnset_comm.
    cbn [map] in Hnd. apply NoDup_cons in Hnd as [Hy _].
    intros Heq. apply Hy. rewrite Heq. apply list_elem_of_here.
  - rewrite IH1 by done. apply IH2.
    by rewrite <- H1.
Qed.

(** X6. When two keys of the map have the same canonical form, the value
    that is written for a header that was unset is the one of the entry the
    loop visits first: the two orders leave the two different values. *)
Theorem setHeaders_collision_order (k1 k2 v1 v2 : string) (h : Header) :
  CanonicalMIMEHeaderKey k1 = CanonicalMIMEHeaderKey k2 ->
  v1 <> "" -> v2 <> "" ->
  Header_Get h k1 = "" ->
  Header_Get (setHeaders [(k1, v1); (k2, v2)] h) k1 = v1 /\
  Header_Get (setHeaders [(k2, v2); (k1, v1)] h) k1 = v2.
Proof.
  intros Hcanon Hv1 Hv2 Hunset. rewrite !setHeaders_Get, Hunset. cbn [firstWrite String.eqb].
  rewrite <- Hcanon, String.eqb_refl. cbn [andb].
  destruct (String.eqb_spec v1 ""), (String.eqb_spec v2 ""); done.
Qed.

(** ** The readers of request.go *)

(** X7. On a [BasicReader], [Has], [GetSlice] and [GetDefault] agree with
    [Get]: a key counts as present exactly when it maps to a non-empty
    list, [GetSlice] then returns that list, and [GetDefault] returns its
    first value, also when that value is the empty string; for an absent
    key and for an empty list [GetDefault] returns the default.
    [GetDefault] never panics. *)
Theorem BasicReader_accessors_agree (reader : BasicReader) (key defaultValue : string) :
  BasicReader_Has reader key
    = match reader !! key with Some (_ :: _) => true | _ => false end /\
  BasicReader_GetSlice reader key
    = match reader !! key with
      | Some (first :: rest) => (first :: rest, true)
      | _ => ([], false)
      end /\
  BasicReader_GetDefault reader key defaultValue
    = Some (match reader !! key with
            | Some (first :: _) => first
            | _ => defaultValue
            end).
Proof.
  unfold BasicReader_Has, BasicReader_GetDefault. rewrite BasicReader_Get_cases.
  unfold BasicReader_GetSlice.
  destruct (reader !! key) as [[|first rest]|]; done.
Qed.

(** X9. The [Headers] reader that [NewHttpRequest] builds is the header map
    of the request read by exact key: with the keys of the map in canonical
    form, a key spelled in any other way is reported missing by [Get],
    [Has] and [GetDefault], whatever [http.Header.Get] finds for it. *)
Theorem Headers_reader_exact_key {Ext} (request : http_Request) (key defaultValue : string)
        (w : World Ext) :
  canonicalKeys (req_Header request) ->
  CanonicalMIMEHeaderKey key <> key ->
  exists hr w',
    NewHttpRequest request w = Some (hr, w') /\
    BasicReader_Get (Headers hr) key = Some ("", false) /\
    BasicReader_Has (Headers hr) key = false /\
    BasicReader_GetDefault (Headers hr) key defaultValue = Some defaultValue.
Proof.
  intros Hcanon Hkey. eexists _, _. split; [reflexivity|]. cbn [Headers].
  assert (Hnone : req_Header request !! key = None).
  { destruct (req_Header request !! key) as [vs|] eqn:Hk; [|done].
    by apply Hcanon in Hk. }
  unfold BasicReader_Has, BasicReader_GetDefault. rewrite BasicReader_Get_cases.
  unfold BasicReader_GetSlice. by rewrite Hnone.
Qed.

(** ** [Html] *)

Section TemplateFacts.
Context {Ext : Type} {any Template : Type}.
Variable template_ParseFiles : string -> Template * option error.
Variable template_Execute : Template -> any -> string * option error.

(** X10. [Html] never dereferences a [nil] pointer.  A failure to parse or
    to execute the template gives the response of [Error] with status 500
    and the message after the prefix [template parse: ], whatever was
    written to the buffer; a page that is produced is rendered with the
    given status exactly as [String] renders it, with the content type
    [text/plain]. *)
Theorem Html_outcomes (code : Z) (file : string) (template : any) :
  Html (Ext:=Ext) any Template template_ParseFiles template_Execute code file template
  = Some (match template_ParseFiles file with
          | (_, Some err) =>
              Error StatusInternalServerError (fmt_Errorf_v "template parse: " err)
          | (t, None) =>
              match template_Execute t template with
              | (_, Some err) =>
                  Error StatusInternalServerError (fmt_Errorf_v "template parse: " err)
              | (page, None) => htmlResponse code page
              end
          end) /\
  forall page r (w : World Ext),
    ServeHTTP (htmlResponse code page) r w = ServeHTTP (String_ code page) r w.
Proof.
  split; [|reflexivity]. unfold Html, parseTemplate.
  destruct (template_ParseFiles file) as [t [err|]]; [reflexivity|].
  destruct (template_Execute t template) as [page [err|]]; reflexivity.
Qed.

End TemplateFacts.

(** ** [BodyReader] *)

Section BodyFacts.
Context {Body Dest : Type}.
Variable ioutil_ReadAll : Body -> (string * option error) * Body.
Variable Body_Close : Body -> Body.

(** X11. When reading the body fails, [bind] (hence [BindJson] and
    [BindXml]) returns the error of the read without calling the
    formatter, so the destination is left as it was; [ToBytes] and
    [ToString] return that error with no data, dropping the bytes that
    were read before the failure; the body is closed all the same. *)
Theorem BodyReader_read_failure (body body' : Body) (partial : string) (err : error)
        (dest : Dest) (formatter : string -> Dest -> Dest * option error) :
  ioutil_ReadAll body = ((partial, Some err), body') ->
  BodyReader_bind Body ioutil_ReadAll Body_Close dest formatter body
    = ((dest, Some err), Body_Close body') /\
  BodyReader_BindJson Body ioutil_ReadAll Body_Close formatter dest body
    = ((dest, Some err), Body_Close body') /\
  BodyReader_BindXml Body ioutil_ReadAll Body_Close formatter dest body
    = ((dest, Some err), Body_Close body') /\
  BodyReader_ToBytes Body ioutil_ReadAll Body_Close body = (("", Some err), Body_Close body') /\
  BodyReader_ToString Body ioutil_ReadAll Body_Close body = (("", Some err), Body_Close body').
Proof.
  intros Hread.
  unfold BodyReader_BindJson, BodyReader_BindXml, BodyReader_bind, BodyReader_ToString,
    BodyReader_ToBytes.
  rewrite Hread. done.
Qed.

(** X12. When the body is read to its end, [bind] hands exactly the bytes
    that were read to the formatter and returns the formatter's error as
    it is, with the destination as the formatter left it; [ToString]
    returns the same bytes as [ToBytes]; the body is closed. *)
Theorem BodyReader_read_success (body body' : Body) (data : string)
        (dest : Dest) (formatter : string -> Dest -> Dest * option error) :
  ioutil_ReadAll body = ((data, None), body') ->
  BodyReader_bind Body ioutil_ReadAll Body_Close dest formatter body
    = (formatter data dest, Body_Close body') /\
  BodyReader_ToBytes Body ioutil_ReadAll Body_Close body = ((data, None), Body_Close body') /\
  BodyReader_ToString Body ioutil_ReadAll Body_Close body = ((data, None), Body_Close body').
Proof.
  intros Hread. unfold BodyReader_bind, BodyReader_ToString, BodyReader_ToBytes.
  rewrite Hread. done.
Qed.

End BodyFacts.

(** ** Dispatch: call order, transparent middlewares, panics *)

Lemma nest_logOnCall (names : list string) hr (next : Response (list string)) w :
  nest (map logOnCall names) hr next w
  = Some (next, mkWorld (rw w) (routeParams w) (ext w ++ rev names)%list).
Proof.
  induction names as [|name names IH].
  - destruct w. cbn. by rewrite app_nil_r.
  - cbn [map nest rev]. unfold bind at 1. rewrite IH.
    unfold logOnCall, bind, modify, ret, on_ext. cbn [rw routeParams ext].
    by rewrite app_assoc.
Qed.

Section DispatchMore.
Context {MethodIndex Matcher : Type}.
Context (methodToInt : string -> MethodIndex) (path_Clean : string -> string).

(** X13. The middleware functions are called while the chain is composed,
    before the composed handler runs: with middlewares that log in their
    own body and hand back [next], the log shows the route's middlewares
    from last to first, then the global ones from last to first, then the
    endpoint. *)
Theorem middleware_call_order
        (findNode : Matcher -> string -> option (@node (list string) MethodIndex) * RouteParamReader)
        (router : @Router (list string) Matcher) (request : http_Request)
        (found : option (@node (list string) MethodIndex)) (params : RouteParamReader)
        (gs ls : list string) (e : string) (resp : Response (list string))
        (w : World (list string)) :
  findNode (matcher router) (sanitizedPath path_Clean router request) = (found, params) ->
  globalMiddlewares router = map logOnCall gs ->
  routeMiddlewares found (methodToInt (req_Method request)) = map logOnCall ls ->
  routeEndpoint router found (methodToInt (req_Method request)) = Some (loggingEndpoint e resp) ->
  quiet resp ->
  exists w',
    Router_ServeHTTP methodToInt path_Clean findNode router request w = Some (tt, w') /\
    ext w' = (ext w ++ rev ls ++ rev gs ++ [e])%list.
Proof.
  intros Hfind Hgs Hls He Hquiet.
  rewrite (Router_ServeHTTP_pipeline _ _ _ _ _ _ _ _ Hfind).
  unfold pipeline. unfold bind at 1. rewrite compose_nest.
  rewrite Hgs, Hls, He, <- map_app, nest_logOnCall.
  cbn [call_ServeHTTP terminal ServeHTTP call_Endpoint].
  unfold loggingEndpoint. unfold bind, modify, ret.
  match goal with |- context [call_ServeHTTP resp request ?w1] =>
    destruct (Hquiet request w1) as (w' & -> & Hext) end.
  exists w'. split; [reflexivity|]. rewrite Hext.
  cbn [on_ext set_routeParams rw routeParams ext].
  by rewrite rev_app_distr, <- !app_assoc.
Qed.

(** X14. A middleware that answers without using [next] does not keep the
    middlewares after it in the chain from being called: they were called
    before it.  With the global middlewares [gs1], then [deny401], then
    [gs2], and the route's middlewares [ls], all logging in their body,
    every one of them has logged, the endpoint is not called, whatever it
    is, and the response is the status 401. *)
Theorem short_circuit_after_inner_calls
        (findNode : Matcher -> string -> option (@node (list string) MethodIndex) * RouteParamReader)
        (router : @Router (list string) Matcher) (request : http_Request)
        (found : option (@node (list string) MethodIndex)) (params : RouteParamReader)
        (gs1 gs2 ls : list string) (w : World (list string)) :
  findNode (matcher router) (sanitizedPath path_Clean router request) = (found, params) ->
  globalMiddlewares router = (map logOnCall gs1 ++ deny401 :: map logOnCall gs2)%list ->
  routeMiddlewares found (methodToInt (req_Method request)) = map logOnCall ls ->
  exists w',
    Router_ServeHTTP methodToInt path_Clean findNode router request w = Some (tt, w') /\
    ext w' = (ext w ++ rev ls ++ rev gs2 ++ rev gs1)%list /\
    WriteHeader 401 (rw w) = Some (rw w').
Proof.
  intros Hfind Hgs Hls.
  rewrite (Router_ServeHTTP_pipeline _ _ _ _ _ _ _ _ Hfind).
  unfold pipeline. unfold bind at 1. rewrite compose_nest, Hgs, Hls.
  rewrite nest_app. unfold bind at 1. rewrite nest_logOnCall.
  rewrite nest_app. unfold bind at 1. cbn [nest]. unfold bind at 1.
  rewrite nest_logOnCall. unfold deny401 at 1, ret at 1. rewrite nest_logOnCall.
  cbn [call_ServeHTTP]. unfold Status.
  rewrite ServeHTTP_statusResponse, accepted_cases by (by right).
  eexists. split; [reflexivity|]. cbn [on_rw set_routeParams rw routeParams ext].
  split; [by rewrite <- !app_assoc|]. by apply WriteHeader_accepted.
Qed.

Section AnyState.
Context {Ext : Type}.
Context (findNode : Matcher -> string -> option (@node Ext MethodIndex) * RouteParamReader).

Lemma Router_ServeHTTP_transparent
      (router : @Router Ext Matcher) (request : http_Request)
      (found : option (@node Ext MethodIndex)) (params : RouteParamReader)
      (endpoint : Endpoint Ext) (w : World Ext) :
  findNode (matcher router) (sanitizedPath path_Clean router request) = (found, params) ->
  Forall transparent (globalMiddlewares router) ->
  Forall transparent (routeMiddlewares found (methodToInt (req_Method request))) ->
  routeEndpoint router found (methodToInt (req_Method request)) = Some endpoint ->
  Router_ServeHTTP methodToInt path_Clean findNode router request w
  = (let* resp := endpoint (httpRequestOf request) in call_ServeHTTP resp request)
      (set_routeParams params w).
Proof.
  intros Hfind Hgs Hls He.
  rewrite (Router_ServeHTTP_pipeline _ _ _ _ _ _ _ _ Hfind).
  unfold pipeline. unfold bind at 1. rewrite compose_nest, He.
  rewrite nest_transparent by (by apply Forall_app).
  reflexivity.
Qed.

(** X15. Middlewares that hand back [next] and touch nothing leave no
    trace: serving the request is storing the bindings of the lookup,
    calling the endpoint and rendering the response it returns. *)
Theorem transparent_middlewares_vanish
        (router : @Router Ext Matcher) (request : http_Request)
        (found : option (@node Ext MethodIndex)) (params : RouteParamReader)
        (endpoint : Endpoint Ext) (w : World Ext) :
  findNode (matcher router) (sanitizedPath path_Clean router request) = (found, params) ->
  Forall transparent (globalMiddlewares router) ->
  Forall transparent (routeMiddlewares found (methodToInt (req_Method request))) ->
  routeEndpoint router found (methodToInt (req_Method request)) = Some endpoint ->
  Router_ServeHTTP methodToInt path_Clean findNode router request w
  = (let* resp := endpoint (httpRequestOf request) in call_ServeHTTP resp request)
      (set_routeParams params w).
Proof. apply Router_ServeHTTP_transparent. Qed.

(** X16. With no not-found handler configured, a request whose lookup or
    method misses makes [ServeHTTP] panic on the call of a [nil] endpoint
    as soon as the chain reaches the terminal handler, as it does when the
    middlewares hand back [next]; so does an endpoint that returns a [nil]
    response. *)
Theorem nil_endpoint_panics
        (router : @Router Ext Matcher) (request : http_Request)
        (found : option (@node Ext MethodIndex)) (params : RouteParamReader) (w : World Ext) :
  findNode (matcher router) (sanitizedPath path_Clean router request) = (found, params) ->
  Forall transparent (globalMiddlewares router) ->
  Forall transparent (routeMiddlewares found (methodToInt (req_Method request))) ->
  (routeEndpoint router found (methodToInt (req_Method request)) = None \/
   routeEndpoint router found (methodToInt (req_Method request)) = Some (constEndpoint None)) ->
  Router_ServeHTTP methodToInt path_Clean findNode router request w = None.
Proof.
  intros Hfind Hgs Hls He.
  rewrite (Router_ServeHTTP_pipeline _ _ _ _ _ _ _ _ Hfind).
  unfold pipeline. unfold bind at 1. rewrite compose_nest.
  rewrite nest_transparent by (by apply Forall_app).
  destruct He as [-> | ->]; reflexivity.
Qed.

(** X17. A first global middleware that returns a [nil] response makes
    [ServeHTTP] panic, whatever the route and the other middlewares are:
    the composed handler that is called is [nil]. *)
Theorem nil_response_panics
        (router : @Router Ext Matcher) (request : http_Request)
        (m : Middleware Ext) (rest : list (Middleware Ext)) (w : World Ext) :
  globalMiddlewares router = m :: rest ->
  (forall hr next w0 resp w1, m hr next w0 = Some (resp, w1) -> resp = None) ->
  Router_ServeHTTP methodToInt path_Clean findNode router request w = None.
Proof.
  intros Hgs Hnil.
  destruct (findNode (matcher router) (sanitizedPath path_Clean router request))
    as [found params] eqn:Hfind.
  rewrite (Router_ServeHTTP_pipeline _ _ _ _ _ _ _ _ Hfind).
  unfold pipeline. unfold bind at 1. rewrite compose_nest, Hgs.
  cbn [app nest]. unfold bind at 1.
  destruct (nest _ _ _ _) as [[inner w0]|]; [|reflexivity].
  destruct (m (httpRequestOf request) inner w0) as [[resp w1]|] eqn:Hm; [|reflexivity].
  by rewrite (Hnil _ _ _ _ _ Hm).
Qed.

End AnyState.
End DispatchMore.

(** ** [Bytes] *)

(** X18. [Bytes] with a final status that [WriteHeader] accepts, on a
    writer to which nothing has been sent, sends that status with the
    headers as they are and appends the data to the body; it sets no
    header, so no content type either. *)
Theorem Bytes_renders {Ext} (code : Z) (data : string) r (w : World Ext) :
  wroteHeader (rw w) = false ->
  checkWriteHeaderCode code = true ->
  is_informational code = false ->
  exists w', ServeHTTP (Bytes code data) r w = Some (tt, w') /\
             status (rw w') = code /\
             header (rw w') = header (rw w) /\
             sentHeader (rw w') = header (rw w) /\
             written (rw w') = written (rw w) +:+ data.
Proof.
  intros Hw Hcode Hfinal. unfold Bytes, StatusWithResponse.
  rewrite ServeHTTP_statusResponse, accepted_cases by (by right).
  eexists. split; [reflexivity|].
  cbn [on_rw rw]. unfold Write, sendHeader. rewrite Hw, Hfinal. cbn. done.
Qed.

(** ** Route parameters read by an endpoint *)

(** X8. What an endpoint reads with [GetDefault] from [RouteParams] is what
    the lookup bound: behind middlewares that hand back [next], an endpoint
    that answers with the parameter as a string writes the value the
    lookup bound to the key, also when that value is the empty string, and
    the default only when the lookup bound nothing to the key. *)
Theorem endpoint_reads_route_param {Ext MethodIndex Matcher : Type}
        (methodToInt : string -> MethodIndex) (path_Clean : string -> string)
        (findNode : Matcher -> string -> option (@node Ext MethodIndex) * RouteParamReader)
        (router : @Router Ext Matcher) (request : http_Request)
        (found : option (@node Ext MethodIndex)) (params : RouteParamReader)
        (key defaultValue : string) (w : World Ext) :
  findNode (matcher router) (sanitizedPath path_Clean router request) = (found, params) ->
  Forall transparent (globalMiddlewares router) ->
  Forall transparent (routeMiddlewares found (methodToInt (req_Method request))) ->
  routeEndpoint router found (methodToInt (req_Method request))
    = Some (paramEndpoint key defaultValue) ->
  exists w',
    Router_ServeHTTP methodToInt path_Clean findNode router request w = Some (tt, w') /\
    routeParams w' = params /\
    written (rw w') = written (rw w) +:+ match params !! key with
                                         | Some value => value
                                         | None => defaultValue
                                         end.
Proof.
  intros Hfind Hgs Hls He.
  rewrite (Router_ServeHTTP_transparent _ _ _ _ _ _ _ _ _ Hfind Hgs Hls He).
  unfold bind, paramEndpoint. cbn [call_ServeHTTP set_routeParams routeParams].
  unfold String_. rewrite ServeHTTP_stringResponse, accepted_cases by (by right).
  eexists. split; [reflexivity|].
  cbn [on_rw rw routeParams]. split; [reflexivity|].
  rewrite renderTyped_written. cbn [rw].
  unfold RouteParamReader_GetDefault, RouteParamReader_Get.
  by destruct (params !! key).
Qed.

(** ** The further properties at concrete inputs *)

Lemma headerRequest_canonical : canonicalKeys (req_Header More.headerRequest).
Proof.
  intros k vs Hk. cbn [More.headerRequest req_Header] in Hk.
  apply lookup_singleton_Some in Hk as [<- _]. reflexivity.
Qed.

Lemma plain_response_appends_witness :
  exists w', ServeHTTP More.nestedResponse exampleRequest (freshWorld tt) = Some (tt, w') /\
             routeParams w' = routeParams (freshWorld tt) /\ ext w' = ext (freshWorld tt) /\
             exists more, written (rw w') = written (rw (freshWorld tt)) +:+ more.
Proof.
  apply (plain_response_appends More.nestedResponse exampleRequest (freshWorld tt)).
  - reflexivity.
  - reflexivity.
Defined.

Lemma sent_status_is_final_witness :
  exists w', ServeHTTP More.nestedResponse exampleRequest More.sentWorld = Some (tt, w') /\
             wroteHeader (rw w') = true /\
             status (rw w') = status (rw More.sentWorld) /\
             sentHeader (rw w') = sentHeader (rw More.sentWorld).
Proof.
  apply (sent_status_is_final More.nestedResponse exampleRequest More.sentWorld).
  - reflexivity.
  - reflexivity.
Defined.

Lemma leading_status_is_sent_witness :
  exists w', ServeHTTP More.nestedResponse exampleRequest (freshWorld tt) = Some (tt, w') /\
             status (rw w') = 404 /\
             sentHeader (rw w') = header (rw (freshWorld tt)).
Proof.
  apply (leading_status_is_sent More.nestedResponse 404 exampleRequest (freshWorld tt)).
  - reflexivity.
  - reflexivity.
  - reflexivity.
  - reflexivity.
  - reflexivity.
Defined.

Lemma WithHeaders_outside_is_sent_witness :
  exists w', ServeHTTP (WithHeaders Fixture.jsonDefault (Some (jsonResponse 200 "{}")))
                       exampleRequest (freshWorld tt) = Some (tt, w') /\
             status (rw w') = 200 /\
             sentHeader (rw w') = setHeaders Fixture.jsonDefault (header (rw (freshWorld tt))) /\
             forall k, Header_Get (header (rw (freshWorld tt))) k = "" ->
                       Header_Get (sentHeader (rw w')) k = firstWrite k Fixture.jsonDefault.
Proof.
  apply (WithHeaders_outside_is_sent Fixture.jsonDefault (jsonResponse 200 "{}") 200
           exampleRequest (freshWorld tt)).
  - reflexivity.
  - reflexivity.
  - reflexivity.
  - reflexivity.
  - reflexivity.
Defined.

Lemma setHeaders_order_irrelevant_witness :
  setHeaders [("A", "1"); ("B", "2")] ∅ = setHeaders [("B", "2"); ("A", "1")] ∅.
Proof.
  apply (setHeaders_order_irrelevant [("A", "1"); ("B", "2")] [("B", "2"); ("A", "1")] ∅).
  - apply perm_swap.
  - unfold distinctCanonical. apply (bool_decide_unpack _). vm_compute. exact I.
Defined.

Lemma setHeaders_collision_order_witness :
  Header_Get (setHeaders [("x-id", "1"); ("X-Id", "2")] ∅) "x-id" = "1" /\
  Header_Get (setHeaders [("X-Id", "2"); ("x-id", "1")] ∅) "x-id" = "2".
Proof.
  apply (setHeaders_collision_order "x-id" "X-Id" "1" "2" ∅).
  - reflexivity.
  - discriminate.
  - discriminate.
  - reflexivity.
Defined.

Lemma Headers_reader_exact_key_witness :
  Header_Get (req_Header More.headerRequest) "content-type" = "text/plain" /\
  exists hr w',
    NewHttpRequest More.headerRequest (freshWorld tt) = Some (hr, w') /\
    BasicReader_Get (Headers hr) "content-type" = Some ("", false) /\
    BasicReader_Has (Headers hr) "content-type" = false /\
    BasicReader_GetDefault (Headers hr) "content-type" "none" = Some "none".
Proof.
  split; [reflexivity|].
  apply (Headers_reader_exact_key More.headerRequest "content-type" "none" (freshWorld tt)).
  - apply headerRequest_canonical.
  - vm_compute. discriminate.
Defined.

Lemma BodyReader_read_failure_witness :
  BodyReader_bind More.Body More.readFails More.close "old" More.store ("partial", false)
  = (("old", Some (errors_New "unexpected EOF")), ("", true)).
Proof.
  apply (BodyReader_read_failure More.readFails More.close ("partial", false) ("", false)
           "par" (errors_New "unexpected EOF") "old" More.store).
  reflexivity.
Defined.

Lemma BodyReader_read_success_witness :
  BodyReader_bind More.Body More.readAll More.close "old" More.store ("body", false)
  = (("body", None), ("", true)).
Proof.
  apply (BodyReader_read_success More.readAll More.close ("body", false) ("", false)
           "body" "old" More.store).
  reflexivity.
Defined.

Lemma middleware_call_order_witness :
  exists w',
    Router_ServeHTTP Fixture.methodToInt Fixture.path_Clean Fixture.findNode
                     More.calledRouter Fixture.getUser (freshWorld []) = Some (tt, w') /\
    ext w' = ([] ++ rev ["L1"; "L2"] ++ rev ["G1"; "G2"] ++ ["endpoint"])%list.
Proof.
  apply (middleware_call_order Fixture.methodToInt Fixture.path_Clean Fixture.findNode
           More.calledRouter Fixture.getUser (Some More.calledNode) {["id" := "42"]}
           ["G1"; "G2"] ["L1"; "L2"] "endpoint" (Some (Status 200)) (freshWorld [])).
  - reflexivity.
  - reflexivity.
  - reflexivity.
  - reflexivity.
  - by apply Status_quiet.
Defined.

Lemma short_circuit_after_inner_calls_witness :
  exists w',
    Router_ServeHTTP Fixture.methodToInt Fixture.path_Clean Fixture.findNode
                     More.deniedRouter Fixture.getUser (freshWorld []) = Some (tt, w') /\
    ext w' = ([] ++ rev ["L1"; "L2"] ++ rev ["G2"] ++ rev ["G1"])%list /\
    WriteHeader 401 (rw (freshWorld (Ext:=list string) [])) = Some (rw w').
Proof.
  apply (short_circuit_after_inner_calls Fixture.methodToInt Fixture.path_Clean Fixture.findNode
           More.deniedRouter Fixture.getUser (Some More.calledNode) {["id" := "42"]}
           ["G1"] ["G2"] ["L1"; "L2"] (freshWorld [])).
  - reflexivity.
  - reflexivity.
  - reflexivity.
Defined.

Lemma transparent_middlewares_vanish_witness :
  Router_ServeHTTP Fixture.methodToInt Fixture.path_Clean Fixture.findNode
                   More.bytesRouter Fixture.getUser (freshWorld tt)
  = (let* resp := constEndpoint (Some (Bytes 200 "hi")) (httpRequestOf Fixture.getUser) in
     call_ServeHTTP resp Fixture.getUser)
      (set_routeParams {["id" := "42"]} (freshWorld tt)).
Proof.
  apply (transparent_middlewares_vanish Fixture.methodToInt Fixture.path_Clean Fixture.findNode
           More.bytesRouter Fixture.getUser (Some More.bytesNode) {["id" := "42"]}
           (constEndpoint (Some (Bytes 200 "hi"))) (freshWorld tt)).
  - reflexivity.
  - constructor; [apply passNext_transparent|constructor].
  - constructor; [apply passNext_transparent|constructor].
  - reflexivity.
Defined.

Lemma nil_endpoint_panics_witness :
  Router_ServeHTTP Fixture.methodToInt Fixture.path_Clean Fixture.findNode
                   More.bytesRouter Fixture.traceUser (freshWorld tt) = None.
Proof.
  apply (nil_endpoint_panics Fixture.methodToInt Fixture.path_Clean Fixture.findNode
           More.bytesRouter Fixture.traceUser (Some More.bytesNode) {["id" := "42"]}
           (freshWorld tt)).
  - reflexivity.
  - constructor; [apply passNext_transparent|constructor].
  - constructor.
  - left. reflexivity.
Defined.

Lemma nil_response_panics_witness :
  Router_ServeHTTP Fixture.methodToInt Fixture.path_Clean Fixture.findNode
                   More.nilRouter Fixture.getUser (freshWorld tt) = None.
Proof.
  apply (nil_response_panics Fixture.methodToInt Fixture.path_Clean Fixture.findNode
           More.nilRouter Fixture.getUser More.returnsNil [More.passNext] (freshWorld tt)).
  - reflexivity.
  - intros hr next w0 resp w1 [= <- _]. reflexivity.
Defined.

Lemma Bytes_renders_witness :
  exists w', ServeHTTP (Bytes 200 "hi") exampleRequest (freshWorld tt) = Some (tt, w') /\
             status (rw w') = 200 /\
             header (rw w') = header (rw (freshWorld tt)) /\
             sentHeader (rw w') = header (rw (freshWorld tt)) /\
             written (rw w') = written (rw (freshWorld tt)) +:+ "hi".
Proof.
  apply (Bytes_renders 200 "hi" exampleRequest (freshWorld tt)).
  - reflexivity.
  - reflexivity.
  - reflexivity.
Defined.

Lemma endpoint_reads_route_param_witness :
  exists w',
    Router_ServeHTTP Fixture.methodToInt Fixture.path_Clean Fixture.findNode
                     More.paramRouter Fixture.getUser (freshWorld tt) = Some (tt, w') /\
    routeParams w' = {["id" := "42"]} /\
    written (rw w') = written (rw (freshWorld tt))
                      +:+ match ({["id" := "42"]} : RouteParamReader) !! "id" with
                          | Some value => value
                          | None => "none"
                          end.
Proof.
  apply (endpoint_reads_route_param Fixture.methodToInt Fixture.path_Clean Fixture.findNode
           More.paramRouter Fixture.getUser (Some More.paramNode) {["id" := "42"]}
           "id" "none" (freshWorld tt)).
  - reflexivity.
  - constructor; [apply passNext_transparent|constructor].
  - constructor; [apply passNext_transparent|constructor].
  - reflexivity.
Defined.
